(** * diffspeak: the diffusion core of [LitDiffWaveModel] and the batch [Collator]

    A shallow embedding of

    - [src/diffspeak/lightning_classes/lightningmodule_model.py]
      ([LitDiffWaveModel.forward], [training_step], [adjust_Ts]) and
    - [src/diffspeak/datasets/dataset.py] ([Collator.collate]).

    Conventions of the embedding.

    - Tensor entries are exact real numbers ([R]); [x ** 0.5] is [sqrt x].
      Rounding, overflow and NaN of the machine formats are outside the
      model, except in [Binary64], which computes the schedule of lines
      31-33 in IEEE binary64.
    - A tensor (torch or numpy) is a shape together with its entries in
      row-major order.  The two libraries are not told apart, so the
      [TypeError] of [torch.stack] on numpy arrays is outside the model.
    - Python exceptions are values of [exn]; a computation that may raise
      returns a [result].
    - The sampling loop takes the call of line 56 as a parameter
      [call_self]; [Reentry] supplies the call the source makes there,
      [self(...)], which enters [forward] again.
    - The pseudo-random generators are explicit states over an arbitrary raw
      stream, so every theorem holds for every outcome of the draws.
    - Python dictionaries ([x], [batch], the records of a minibatch) and the
      attributes of the denoiser object are finite maps keyed by strings. *)

From Stdlib Require Import Reals Lra Lia ZArith List.
From Stdlib Require PrimFloat.
From stdpp Require Import base option list gmap strings.

Local Open Scope R_scope.

(** ** Exceptions and results *)

Module Py.

(** The exceptions the two files can raise.  [EmptyBatchError] is the
    spec's name (section 7); no statement of the source raises it.
    [CalleeError] stands for whatever an external callee raised. *)
Inductive exn : Type :=
  | KeyError
  | IndexError
  | TypeError
  | AttributeError
  | UnboundLocalError
  | ValueError
  | RuntimeError
  | EmptyBatchError
  | CalleeError (code : nat).

Inductive result (A : Type) : Type :=
  | Ok (a : A)
  | Raise (e : exn).

Arguments Ok {A} a.
Arguments Raise {A} e.

Definition bind {A B : Type} (r : result A) (k : A -> result B) : result B :=
  match r with
  | Ok a => k a
  | Raise e => Raise e
  end.

Definition is_ok {A : Type} (r : result A) : Prop :=
  match r with Ok _ => True | Raise _ => False end.

(** [o] when it is there, the exception [e] otherwise. *)
Definition or_raise {A : Type} (e : exn) (o : option A) : result A :=
  match o with
  | Some a => Ok a
  | None => Raise e
  end.

End Py.

Import Py.

(** [result] is a monad; the [x ← r; k] notation is stdpp's. *)
#[global] Instance result_ret : MRet result := fun _ a => Ok a.
#[global] Instance result_bind : MBind result := fun _ _ k r => Py.bind r k.

(** ** Tensors *)

Module Tensor.

Record tensor : Type := mk {
  shape : list nat;
  data : list R;
}.

(** Number of entries of a shape. *)
Definition numel (s : list nat) : nat := foldr Nat.mul 1%nat s.

Definition rank (t : tensor) : nat := length (shape t).

(** Row-major multi-index of the flat position [k] in shape [s]. *)
Fixpoint unravel (s : list nat) (k : nat) : list nat :=
  match s with
  | [] => []
  | _ :: s' => (k / numel s')%nat :: unravel s' (k mod numel s')
  end.

(** Flat position of a multi-index. *)
Fixpoint ravel (s idx : list nat) : nat :=
  match s, idx with
  | _ :: s', i :: idx' => (i * numel s' + ravel s' idx')%nat
  | _, _ => 0%nat
  end.

(** Shape of the broadcast of two shapes, both given last dimension first. *)
Fixpoint bshape_rev (a b : list nat) : option (list nat) :=
  match a, b with
  | [], _ => Some b
  | _, [] => Some a
  | x :: a', y :: b' =>
      match bshape_rev a' b' with
      | None => None
      | Some r =>
          if (x =? y)%nat then Some (x :: r)
          else if (x =? 1)%nat then Some (y :: r)
          else if (y =? 1)%nat then Some (x :: r)
          else None
      end
  end.

Definition broadcast_shapes (a b : list nat) : option (list nat) :=
  match bshape_rev (rev a) (rev b) with
  | Some r => Some (rev r)
  | None => None
  end.

(** The multi-index [idx] of the broadcast result, seen from an operand of
    shape [s]: leading dimensions the operand lacks are dropped, and a
    dimension of size 1 is read at 0. *)
Definition align (s idx : list nat) : list nat :=
  zip_with (fun d i => if (d =? 1)%nat then 0%nat else i)
           s (drop (length idx - length s) idx).

(** Entry of [t] that the broadcast to shape [so] puts at flat position [k]. *)
Definition bget (t : tensor) (so : list nat) (k : nat) : R :=
  nth (ravel (shape t) (align (shape t) (unravel so k))) (data t) 0.

(** Element-wise binary operation with broadcasting. *)
Definition binop (f : R -> R -> R) (a b : tensor) : result tensor :=
  match broadcast_shapes (shape a) (shape b) with
  | None => Raise RuntimeError
  | Some so =>
      Ok (mk so (map (fun k => f (bget a so k) (bget b so k))
                     (seq 0 (numel so))))
  end.

(** [a += b]: the result keeps the shape of [a]. *)
Definition iadd (a b : tensor) : result tensor :=
  r ← binop Rplus a b;
  if decide (shape r = shape a) then Ok r else Raise RuntimeError.

Definition tmap (f : R -> R) (t : tensor) : tensor :=
  mk (shape t) (map f (data t)).

(** [c * t] for a 0-dimensional [c]. *)
Definition scale (c : R) (t : tensor) : tensor := tmap (Rmult c) t.

(** [1.0 - t]. *)
Definition one_minus (t : tensor) : tensor := tmap (fun x => 1 - x) t.

(** [t ** 0.5]. *)
Definition pow_half (t : tensor) : tensor := tmap sqrt t.

Definition clamp1 (lo hi x : R) : R :=
  if Rlt_dec x lo then lo else if Rlt_dec hi x then hi else x.

(** [torch.clamp(t, lo, hi)]. *)
Definition clamp (lo hi : R) (t : tensor) : tensor := tmap (clamp1 lo hi) t.

(** [t.unsqueeze(0)]. *)
Definition unsqueeze0 (t : tensor) : tensor := mk (1%nat :: shape t) (data t).

(** [t.unsqueeze(1)]; a 0-dimensional tensor has no position 1. *)
Definition unsqueeze1 (t : tensor) : result tensor :=
  match shape t with
  | [] => Raise IndexError
  | d :: s => Ok (mk (d :: 1%nat :: s) (data t))
  end.

(** [t.squeeze(1)]: dimension 1 is removed when its size is 1; a tensor
    with fewer than two dimensions has no dimension 1. *)
Definition squeeze1 (t : tensor) : result tensor :=
  match shape t with
  | d :: 1%nat :: s => Ok (mk (d :: s) (data t))
  | _ :: _ :: _ => Ok t
  | _ => Raise IndexError
  end.

(** [torch.squeeze(t)]: every dimension of size 1 is removed. *)
Definition squeeze (t : tensor) : tensor :=
  mk (filter (fun d => d <> 1%nat) (shape t)) (data t).

(** [len(t)]. *)
Definition len (t : tensor) : result nat :=
  match shape t with
  | [] => Raise TypeError
  | d :: _ => Ok d
  end.

(** [t.shape[0]] and [t.shape[-1]]. *)
Definition shape_first (t : tensor) : result nat :=
  or_raise IndexError (head (shape t)).

Definition shape_last (t : tensor) : result nat :=
  or_raise IndexError (last (shape t)).

(** [t[start:end]] for non-negative bounds: rows [start], ..., [end - 1] of
    the first dimension, both bounds cut at the number of rows. *)
Definition slice0 (t : tensor) (start stop : nat) : result tensor :=
  match shape t with
  | [] => Raise IndexError
  | d :: s =>
      let lo := Nat.min start d in
      let hi := Nat.max lo (Nat.min stop d) in
      Ok (mk ((hi - lo)%nat :: s)
             (take ((hi - lo) * numel s) (drop (lo * numel s) (data t))))
  end.

(** The rows of length [d] of a flat list ([n] of them). *)
Fixpoint chunks (n d : nat) (l : list R) : list (list R) :=
  match n with
  | O => []
  | S n' => take d l :: chunks n' d (drop d l)
  end.

(** [F.pad(t, (0, k), mode="constant", value=0)]: [k] zeros to the right
    of the last dimension; a negative [k] removes entries instead. *)
Definition pad_right (t : tensor) (k : Z) : result tensor :=
  match last (shape t) with
  | None => Raise RuntimeError
  | Some d =>
      if (Z.of_nat d + k <? 0)%Z then Raise RuntimeError
      else
        let d' := Z.to_nat (Z.of_nat d + k) in
        let outer := removelast (shape t) in
        Ok (mk (outer ++ [d'])
               (concat (map (fun row => take d' (row ++ replicate (d' - d) 0))
                            (chunks (numel outer) d (data t)))))
  end.

(** [a.T]: the axes in reverse order. *)
Definition transpose (t : tensor) : tensor :=
  let so := rev (shape t) in
  mk so (map (fun k => nth (ravel (shape t) (rev (unravel so k))) (data t) 0)
             (seq 0 (numel so))).

(** [torch.stack(ts)] along a new first dimension: the list must not be
    empty and the shapes must agree. *)
Definition stack (ts : list tensor) : result tensor :=
  match ts with
  | [] => Raise RuntimeError
  | t :: _ =>
      if forallb (fun u => bool_decide (shape u = shape t)) ts
      then Ok (mk (length ts :: shape t) (concat (map data ts)))
      else Raise RuntimeError
  end.

(** Every entry lies in [[lo, hi]]. *)
Definition within (lo hi : R) (t : tensor) : Prop :=
  Forall (fun x => lo <= x <= hi) (data t).

Definition all_zero (t : tensor) : Prop := Forall (fun x => x = 0) (data t).

End Tensor.

Import Tensor.

(** ** NoiseSchedule: the quantities derived from beta *)

Module Schedule.

(** [torch.ones_like(beta) - beta]. *)
Definition alpha_of (beta : list R) : list R := map (fun b => 1 - b) beta.

Fixpoint cumprod_from (acc : R) (l : list R) : list R :=
  match l with
  | [] => []
  | x :: l' => (acc * x) :: cumprod_from (acc * x) l'
  end.

(** [torch.cumprod(l, 0)]. *)
Definition cumprod (l : list R) : list R := cumprod_from 1 l.

Definition alpha_cum_of (beta : list R) : list R := cumprod (alpha_of beta).

(** Each beta lies strictly between 0 and 1. *)
Definition valid (beta : list R) : Prop := Forall (fun b => 0 < b < 1) beta.

End Schedule.

Import Schedule.

(** ** Random sources *)

Module Rng.

(** The state of torch's generator: a raw stream of normal draws, a raw
    stream of integers, and the number of draws made so far. *)
Record torch_rng : Type := mk_rng {
  normals : nat -> R;
  integers : nat -> nat;
  cursor : nat;
}.

Definition advance (g : torch_rng) (n : nat) : torch_rng :=
  mk_rng (normals g) (integers g) (cursor g + n).

(** [torch.randn] at the dimensions [s]. *)
Definition randn (s : list nat) (g : torch_rng) : tensor * torch_rng :=
  (Tensor.mk s (map (normals g) (seq (cursor g) (numel s))),
   advance g (numel s)).

(** [torch.randn_like(t)]. *)
Definition randn_like (t : tensor) (g : torch_rng) : tensor * torch_rng :=
  randn (shape t) g.

(** [torch.randint(0, high, [n])]: [n] integers in [[0, high)]; an empty
    range is refused. *)
Definition randint (high n : nat) (g : torch_rng)
  : result (list nat * torch_rng) :=
  if (high =? 0)%nat then Raise RuntimeError
  else Ok (map (fun k => (integers g k mod high)%nat) (seq (cursor g) n),
           advance g n).

(** The state of Python's [random] module. *)
Record py_random : Type := mk_py {
  raw : nat -> nat;
  pos : nat;
}.

(** [random.randint(0, hi)]: an integer in [[0, hi]], both ends included;
    [ValueError] on an empty range. *)
Definition py_randint0 (hi : Z) (g : py_random) : result (nat * py_random) :=
  if (hi <? 0)%Z then Raise ValueError
  else Ok ((raw g (pos g) mod (Z.to_nat hi + 1))%nat,
           mk_py (raw g) (S (pos g))).

End Rng.

Import Rng.

(** ** Python values and objects *)

Module Obj.

(** What the dictionaries of the two files hold. *)
Inductive pyval : Type :=
  | PNone
  | PTensor (t : tensor)
  | PStr (s : string).

(** [d[key]]. *)
Definition getitem {V : Type} (d : gmap string V) (key : string) : result V :=
  or_raise KeyError (d !! key).

(** [obj.name] on an object whose attributes are [attrs]. *)
Definition getattr {V : Type} (attrs : gmap string V) (name : string)
  : result V :=
  or_raise AttributeError (attrs !! name).

(** [v.shape] and the like need a tensor. *)
Definition as_tensor (v : pyval) : result tensor :=
  match v with
  | PTensor t => Ok t
  | _ => Raise AttributeError
  end.

End Obj.

Import Obj.

#[global] Instance R_eq_dec : EqDecision R := Req_dec_T.

(** ** ReverseSampler: [LitDiffWaveModel.forward] *)

Module Sampler.

Record config : Type := mk_config {
  inference_noise : option (list R);   (* cfg.inference_noise *)
  unconditional : bool;                (* cfg.model.params.unconditional *)
  hop_samples : nat;                   (* cfg.model.params.hop_samples *)
}.

(** The value of the local [T]: a list of timesteps, or [None]. *)
Inductive Tval : Type :=
  | TList (l : list nat)
  | TNone.

(** [adjust_Ts]: the body is [pass], so the call returns [None]. *)
Definition adjust_Ts (inference_noise : list R) : Tval := TNone.

(** [T[n]]. *)
Definition T_index (T : Tval) (n : nat) : result nat :=
  match T with
  | TNone => Raise TypeError
  | TList l => or_raise IndexError (l !! n)
  end.

(** [range(S - 1, -1, -1)]. *)
Definition range_down (S : nat) : list nat := rev (seq 0 S).

(** Lines 35-40: [T] starts as [list(range(S))]; when an inference
    schedule is configured the guard reads the attribute [noise_shedule] of
    the denoiser object and, unless all entries agree, replaces [T] by the
    result of [adjust_Ts]. *)
Definition select_T (cfg : config) (attrs : gmap string (list R)) (S : nat)
  : result Tval :=
  let T := TList (seq 0 S) in
  match inference_noise cfg with
  | None => Ok T
  | Some l =>
      native ← getattr attrs "noise_shedule";
      if bool_decide (l = native) then Ok T else Ok (adjust_Ts l)
  end.

(** Lines 42-50: the initial audio.  In conditional mode a spectrogram of
    rank 2 gets a leading batch dimension and the audio is noise of shape
    [[spectrogram.shape[0], hop_samples * spectrogram.shape[-1]]]; in
    unconditional mode nothing is assigned and [audio] stays unbound. *)
Definition init_audio (cfg : config) (spectrogram : pyval) (g : torch_rng)
  : result (pyval * option tensor * torch_rng) :=
  if unconditional cfg then Ok (spectrogram, None, g)
  else
    sp ← as_tensor spectrogram;
    let sp := if (rank sp =? 2)%nat then unsqueeze0 sp else sp in
    b ← shape_first sp;
    f ← shape_last sp;
    let '(audio, g) := randn [b; (hop_samples cfg * f)%nat] g in
    Ok (PTensor sp, Some audio, g).

Section Loop.

(** [self(audio, torch.tensor([t]), spectrogram)]: the call operator of the
    module, an external callee that returns a tensor or raises.  The loop
    is written for any callee; the callee that line 56 itself names is
    [Reentry.self_call] below. *)
Variable call_self : tensor -> list nat -> pyval -> result tensor.

Variables beta alpha_train alpha_train_cum : list R.
Variable T : Tval.
Variable spectrogram : pyval.

(** Lines 58-65: the noise added when [n > 0]. *)
Definition add_noise (n : nat) (b_n ac_n : R) (audio : tensor) (g : torch_rng)
  : result (tensor * torch_rng) :=
  if (0 <? n)%nat then
    let '(noise, g) := randn_like audio g in
    ac_p ← or_raise IndexError (alpha_train_cum !! (n - 1)%nat);
    let sigma := sqrt ((1 - ac_p) / (1 - ac_n) * b_n) in
    audio ← iadd audio (scale sigma noise);
    Ok (audio, g)
  else Ok (audio, g).

(** Lines 53-66: one iteration at loop index [n]. *)
Definition step (n : nat) (st : option tensor * torch_rng)
  : result (option tensor * torch_rng) :=
  let '(audio, g) := st in
  a_n ← or_raise IndexError (alpha_train !! n);
  let c1 := 1 / sqrt a_n in
  b_n ← or_raise IndexError (beta !! n);
  ac_n ← or_raise IndexError (alpha_train_cum !! n);
  let c2 := b_n / sqrt (1 - ac_n) in
  a ← or_raise UnboundLocalError audio;
  t ← T_index T n;
  p ← call_self a [t] spectrogram;
  p ← squeeze1 p;
  d ← binop Rminus a (scale c2 p);
  '(a, g) ← add_noise n b_n ac_n (scale c1 d) g;
  Ok (Some (clamp (-1) 1 a), g).

Fixpoint run (ns : list nat) (st : option tensor * torch_rng)
  : result (option tensor * torch_rng) :=
  match ns with
  | [] => Ok st
  | n :: ns' => st' ← step n st; run ns' st'
  end.

(** Lines 52-66: [for n in range(len(alpha_train) - 1, -1, -1)]. *)
Definition sampling_loop (st : option tensor * torch_rng)
  : result (option tensor * torch_rng) :=
  run (range_down (length alpha_train)) st.

End Loop.

(** [LitDiffWaveModel.forward(x)]. *)
Definition forward (call_self : tensor -> list nat -> pyval -> result tensor)
    (cfg : config) (attrs : gmap string (list R))
    (x : gmap string pyval) (g : torch_rng) : result (tensor * torch_rng) :=
  spectrogram ← getitem x "spectrogram";
  lang ← getitem x "lang";
  beta ← getattr attrs "noise_schedule";
  let alpha_train := alpha_of beta in
  let alpha_train_cum := cumprod alpha_train in
  T ← select_T cfg attrs (length alpha_train_cum);
  '(spectrogram, audio, g) ← init_audio cfg spectrogram g;
  '(audio, g) ← sampling_loop call_self beta alpha_train alpha_train_cum T
                              spectrogram (audio, g);
  audio ← or_raise UnboundLocalError audio;
  Ok (audio, g).

(** [predict_step(batch, ...)] is [self(batch)]. *)
Definition predict_step := forward.

End Sampler.

(** ** Line 56 as written: [self(...)] re-enters [forward] *)

Module Reentry.

Import Sampler.

(** What [forward] receives as [x]: the batch dictionary from a caller or,
    through line 56, the audio tensor. *)
Inductive pyobj : Type :=
  | ODict (d : gmap string pyval)
  | OTensor (t : tensor).

(** [x[key]] for a string [key]: a tensor takes no string as index. *)
Definition subscript (x : pyobj) (key : string) : result pyval :=
  match x with
  | ODict d => getitem d key
  | OTensor _ => Raise IndexError
  end.

(** [LitDiffWaveModel.forward(x, *args)] for any [x]: lines 28-68. *)
Definition forward_obj
    (call_self : tensor -> list nat -> pyval -> result tensor)
    (cfg : config) (attrs : gmap string (list R))
    (x : pyobj) (g : torch_rng) : result (tensor * torch_rng) :=
  spectrogram ← subscript x "spectrogram";
  lang ← subscript x "lang";
  beta ← getattr attrs "noise_schedule";
  let alpha_train := alpha_of beta in
  let alpha_train_cum := cumprod alpha_train in
  T ← select_T cfg attrs (length alpha_train_cum);
  '(spectrogram, audio, g) ← init_audio cfg spectrogram g;
  '(audio, g) ← sampling_loop call_self beta alpha_train alpha_train_cum T
                              spectrogram (audio, g);
  audio ← or_raise UnboundLocalError audio;
  Ok (audio, g).

(** Line 56: [self] is the [LitDiffWaveModel], so
    [self(audio, torch.tensor([T[n]]), spectrogram)] calls [forward] again
    with the audio tensor as [x] (the other two arguments go to [*args]).
    [fuel] bounds the depth of the re-entry ([RecursionError] is a
    [RuntimeError]).  The inner call raises at line 28 before it draws,
    so the generator handed to it is the one [forward] was entered with. *)
Fixpoint self_call (fuel : nat) (cfg : config) (attrs : gmap string (list R))
    (g : torch_rng) (audio : tensor) (t : list nat) (spectrogram : pyval)
  : result tensor :=
  match fuel with
  | O => Raise RuntimeError
  | S fuel' =>
      '(out, _) ← forward_obj (self_call fuel' cfg attrs g) cfg attrs
                    (OTensor audio) g;
      Ok out
  end.

(** [LitDiffWaveModel.forward] with the callee of line 56. *)
Definition forward_self (fuel : nat) (cfg : config)
    (attrs : gmap string (list R)) (x : pyobj) (g : torch_rng)
  : result (tensor * torch_rng) :=
  forward_obj (self_call fuel cfg attrs g) cfg attrs x g.

End Reentry.

(** ** The schedule in IEEE binary64 *)

Module Binary64.

Import PrimFloat.

(** [torch.ones_like(beta) - beta], every entry a binary64 number. *)
Definition alpha_of (beta : list float) : list float :=
  map (fun b => PrimFloat.sub 1%float b) beta.

Fixpoint cumprod_from (acc : float) (l : list float) : list float :=
  match l with
  | [] => []
  | x :: l' => PrimFloat.mul acc x :: cumprod_from (PrimFloat.mul acc x) l'
  end.

(** [torch.cumprod(l, 0)]: the first entry, then the rounded running
    products. *)
Definition cumprod (l : list float) : list float :=
  match l with
  | [] => []
  | x :: l' => x :: cumprod_from x l'
  end.

Definition alpha_cum_of (beta : list float) : list float :=
  cumprod (alpha_of beta).

(** Each beta lies strictly between 0 and 1. *)
Definition valid (beta : list float) : Prop :=
  Forall (fun b => PrimFloat.ltb 0%float b = true /\ PrimFloat.ltb b 1%float = true)
         beta.

End Binary64.

(** ** ForwardDiffusion: [LitDiffWaveModel.training_step] *)

Module Training.

(** [table[t]] for a tensor [t] of indices. *)
Fixpoint gather (table : list R) (t : list nat) : result (list R) :=
  match t with
  | [] => Ok []
  | i :: t' =>
      v ← or_raise IndexError (table !! i);
      vs ← gather table t';
      Ok (v :: vs)
  end.

(** [N, T = audio.shape]. *)
Definition unpack2 (t : tensor) : result (nat * nat) :=
  match shape t with
  | [N; T] => Ok (N, T)
  | _ => Raise ValueError
  end.

(** Lines 94-100: the timesteps, the noise and the noisy audio. *)
Definition corrupt (attrs : gmap string (list R)) (audio : tensor)
    (g : torch_rng) : result (list nat * tensor * tensor * torch_rng) :=
  '(N, _) ← unpack2 audio;
  noise_schedule ← getattr attrs "noise_schedule";
  '(t, g) ← randint (length noise_schedule) N g;
  noise_level ← getattr attrs "noise_level";
  levels ← gather noise_level t;
  noise_scale ← unsqueeze1 (Tensor.mk [length t] levels);
  let noise_scale_sqrt := pow_half noise_scale in
  let '(noise, g) := randn_like audio g in
  signal_part ← binop Rmult noise_scale_sqrt audio;
  noise_part ← binop Rmult (pow_half (one_minus noise_scale)) noise;
  noisy_audio ← binop Rplus signal_part noise_part;
  Ok (t, noise, noisy_audio, g).

Section Step.

(** [self.model(noisy_audio, t, spectrogram)], [self.loss] and the entries
    of [self.metrics] are external callees. *)
Variable call_model : tensor -> list nat -> pyval -> result tensor.
Variable loss : tensor -> tensor -> result R.
Variable metrics : list (string * (tensor -> tensor -> result R)).

(** Lines 108-119: every metric is evaluated and logged. *)
Fixpoint log_metrics (ms : list (string * (tensor -> tensor -> result R)))
    (noise predicted : tensor) : result (list (string * R)) :=
  match ms with
  | [] => Ok []
  | (name, metric) :: ms' =>
      p ← squeeze1 predicted;
      score ← metric noise p;
      rest ← log_metrics ms' noise predicted;
      Ok ((("train_" +:+ name)%string, score) :: rest)
  end.

(** [training_step(batch, batch_idx)]: the loss, what was logged, and the
    generator afterwards. *)
Definition training_step (attrs : gmap string (list R))
    (batch : gmap string pyval) (g : torch_rng)
  : result (R * list (string * R) * torch_rng) :=
  audio ← getitem batch "audio";
  spectrogram ← getitem batch "spectrogram";
  audio ← as_tensor audio;
  '(t, noise, noisy_audio, g) ← corrupt attrs audio g;
  predicted ← call_model noisy_audio t spectrogram;
  p ← squeeze1 predicted;
  l ← loss noise p;
  logged ← log_metrics metrics noise predicted;
  Ok (l, ("train_Loss"%string, l) :: logged, g).

End Step.

End Training.

(** ** [validation_step] and [test_step] *)

Module Evaluation.

Section Steps.

Variable call_model : tensor -> list nat -> pyval -> result tensor.
Variable loss : tensor -> tensor -> result R.
Variable metrics : list (string * (tensor -> tensor -> result R)).

(** Lines 142-151 and 172-181: every metric is evaluated and logged under
    the prefix of the step. *)
Fixpoint log_scores (prefix : string)
    (ms : list (string * (tensor -> tensor -> result R)))
    (noise predicted : tensor) : result (list (string * R)) :=
  match ms with
  | [] => Ok []
  | (name, metric) :: ms' =>
      p ← squeeze1 predicted;
      score ← metric noise p;
      rest ← log_scores prefix ms' noise predicted;
      Ok (((prefix +:+ name)%string, score) :: rest)
  end.

(** The common body of lines 123-151 and 153-181: nothing is returned;
    what was logged and the generator afterwards are kept. *)
Definition evaluation_step (prefix : string) (attrs : gmap string (list R))
    (batch : gmap string pyval) (g : torch_rng)
  : result (list (string * R) * torch_rng) :=
  audio ← getitem batch "audio";
  spectrogram ← getitem batch "spectrogram";
  audio ← as_tensor audio;
  '(t, noise, noisy_audio, g) ← Training.corrupt attrs audio g;
  predicted ← call_model noisy_audio t spectrogram;
  p ← squeeze1 predicted;
  l ← loss noise p;
  logged ← log_scores prefix metrics noise predicted;
  Ok (((prefix +:+ "Loss")%string, l) :: logged, g).

(** [validation_step(batch, batch_idx)]. *)
Definition validation_step := evaluation_step "val_".

(** [test_step(batch, batch_idx)]. *)
Definition test_step := evaluation_step "test_".

End Steps.

End Evaluation.

(** ** TemporalAligner: [Collator.collate] *)

Module Collator.

Record config : Type := mk_config {
  unconditional : bool;     (* cfg.datamodule.params.unconditional *)
  audio_len : nat;          (* cfg.datamodule.params.audio_len *)
  crop_mel_frames : nat;    (* cfg.datamodule.params.crop_mel_frames *)
  hop_samples : nat;        (* cfg.datamodule.preprocessing.hop_samples *)
}.

(** A record of the minibatch: a dictionary with the keys ["audio"] and
    ["spectrogram"] until [del] removes them. *)
Abbreviation record := (gmap string pyval).

(** [len(v)]. *)
Definition pylen (v : pyval) : result nat :=
  match v with
  | PTensor t => len t
  | PStr s => Ok (String.length s)
  | PNone => Raise TypeError
  end.

(** [del r[key]]. *)
Definition del (key : string) (r : record) : result record :=
  match r !! key with
  | Some _ => Ok (delete key r)
  | None => Raise KeyError
  end.

(** [v[start:stop]] handed to a tensor operation: only a tensor passes. *)
Definition slice_tensor (v : pyval) (start stop : nat) : result tensor :=
  match v with
  | PTensor t => slice0 t start stop
  | _ => Raise TypeError
  end.

(** Lines 74-80 and 101-109: the window [[start, stop)] of the audio,
    squeezed, then padded with zeros on the right up to [stop - start]. *)
Definition crop_audio (audio : pyval) (start stop : nat) : result tensor :=
  w ← slice_tensor audio start stop;
  let w := squeeze w in
  n ← len w;
  pad_right w (Z.of_nat stop - Z.of_nat start - Z.of_nat n).

(** Lines 66-68 and 87-89: both keys are deleted. *)
Definition drop_record (r : record) : result record :=
  r ← del "spectrogram" r;
  del "audio" r.

(** The body of the loop of line 62 for one record. *)
Definition collate_record (cfg : config) (r : record) (g : py_random)
  : result (record * py_random) :=
  if unconditional cfg then
    audio ← getitem r "audio";
    n ← pylen audio;
    if (n <? audio_len cfg)%nat then
      r ← drop_record r; Ok (r, g)
    else
      t ← as_tensor audio;
      width ← shape_last t;
      '(start, g) ← py_randint0 (Z.of_nat width - Z.of_nat (audio_len cfg)) g;
      let stop := (start + audio_len cfg)%nat in
      w ← crop_audio audio start stop;
      Ok (<["audio" := PTensor w]> r, g)
  else
    spectrogram ← getitem r "spectrogram";
    n ← pylen spectrogram;
    if (n <? crop_mel_frames cfg)%nat then
      r ← drop_record r; Ok (r, g)
    else
      sp ← as_tensor spectrogram;
      frames ← shape_first sp;
      '(start, g) ←
        py_randint0 (Z.of_nat frames - Z.of_nat (crop_mel_frames cfg)) g;
      let stop := (start + crop_mel_frames cfg)%nat in
      frames_win ← slice0 sp start stop;
      let r := <["spectrogram" := PTensor (transpose frames_win)]> r in
      let start := (start * hop_samples cfg)%nat in
      let stop := (stop * hop_samples cfg)%nat in
      audio ← getitem r "audio";
      w ← crop_audio audio start stop;
      Ok (<["audio" := PTensor w]> r, g).

(** Lines 62-109: the records in order, the generator threaded through. *)
Fixpoint collate_records (cfg : config) (minibatch : list record)
    (g : py_random) : result (list record * py_random) :=
  match minibatch with
  | [] => Ok ([], g)
  | r :: rest =>
      '(r', g) ← collate_record cfg r g;
      '(rest', g) ← collate_records cfg rest g;
      Ok (r' :: rest', g)
  end.

(** [[record[key] for record in minibatch if key in record]]. *)
Definition present (key : string) (rs : list record) : list pyval :=
  omap (fun r : record => r !! key) rs.

Fixpoint tensors (vs : list pyval) : result (list tensor) :=
  match vs with
  | [] => Ok []
  | PTensor t :: vs' => ts ← tensors vs'; Ok (t :: ts)
  | _ :: _ => Raise TypeError
  end.

(** [torch.stack(vs)]. *)
Definition torch_stack (vs : list pyval) : result tensor :=
  ts ← tensors vs;
  stack ts.

(** [Collator.collate(minibatch)]. *)
Definition collate (cfg : config) (minibatch : list record) (g : py_random)
  : result (gmap string pyval * py_random) :=
  '(rs, g) ← collate_records cfg minibatch g;
  audio ← torch_stack (present "audio" rs);
  if unconditional cfg then
    Ok ({[ "audio" := PTensor audio; "spectrogram" := PNone ]}, g)
  else
    spectrogram ← torch_stack (present "spectrogram" rs);
    Ok ({[ "audio" := PTensor audio; "spectrogram" := PTensor spectrogram ]},
        g).

(** The record fails the length test of its mode (lines 65 and 83-86):
    the tested entry is shorter than the configured length, and both keys
    are there to be deleted. *)
Definition filtered_out (cfg : config) (r : record) : Prop :=
  exists audio spectrogram n,
    r !! "audio" = Some audio /\
    r !! "spectrogram" = Some spectrogram /\
    if unconditional cfg
    then pylen audio = Ok n /\ (n < audio_len cfg)%nat
    else pylen spectrogram = Ok n /\ (n < crop_mel_frames cfg)%nat.

(** A one-dimensional clip of [L] samples. *)
Definition clip (L : nat) (t : tensor) : Prop :=
  shape t = [L] /\ length (data t) = L.

(** The length test of unconditional mode (line 65) as a boolean. *)
Definition passes (cfg : config) (r : record) : bool :=
  match r !! "audio" with
  | Some v =>
      match pylen v with
      | Ok n => negb (n <? audio_len cfg)%nat
      | Raise _ => false
      end
  | None => false
  end.

(** A record whose audio is a clip at least [audio_len] samples long. *)
Definition long_clip (cfg : config) (r : record) : Prop :=
  exists t L,
    r !! "audio" = Some (PTensor t) /\ clip L t /\ (audio_len cfg <= L)%nat.

End Collator.

(** ** The datasets: [AudioDataset] and its two subclasses *)

Module Dataset.

Import Stdlib.Strings.Ascii.

(** The components of a path: the text between slashes, [cur] being the
    component read so far. *)
Fixpoint components_from (p cur : string) : list string :=
  match p with
  | EmptyString => [cur]
  | String c p' =>
      if Ascii.eqb c "/"%char then cur :: components_from p' EmptyString
      else components_from p' (cur +:+ String c EmptyString)
  end.

(** [Path(p).name]: the last component, empty components and ["."]
    left aside. *)
Definition path_name (p : string) : string :=
  default EmptyString
    (last (List.filter
             (fun c => negb (String.eqb c "" || String.eqb c "."))
             (components_from p EmptyString))).

(** Whether a name contains a slash. *)
Fixpoint has_slash (s : string) : bool :=
  match s with
  | EmptyString => false
  | String c s' => Ascii.eqb c "/"%char || has_slash s'
  end.

(** [t[0]]. *)
Definition index0 (t : tensor) : result tensor :=
  match shape t with
  | [] => Raise IndexError
  | O :: _ => Raise IndexError
  | S _ :: s => Ok (Tensor.mk s (take (numel s) (data t)))
  end.

(** [l[idx]] on a Python list. *)
Definition list_index {A : Type} (l : list A) (idx : Z) : result A :=
  let n := Z.of_nat (length l) in
  if (idx <? - n)%Z || (n <=? idx)%Z then Raise IndexError
  else or_raise IndexError
         (l !! Z.to_nat (if (idx <? 0)%Z then idx + n else idx)%Z).

Section Files.

(** The file system: [torchaudio.load(f)] (its first component, the
    signal), [np.load(f)], and the [/] of [pathlib]. *)
Variable torchaudio_load : string -> result tensor.
Variable np_load : string -> result tensor.
Variable joinpath : string -> string -> string.

(** What [AudioDataset.__init__] stores: the spectrogram directory and
    the file names found by [glob]. *)
Record dataset : Type := mk_dataset {
  spectrograms_path : string;
  filenames : list string;
}.

(** [AudioDataset.__len__]. *)
Definition dataset_len (ds : dataset) : nat := length (filenames ds).

(** Line 37: the spectrogram file of an audio file. *)
Definition spec_filename (ds : dataset) (audio_filename : string) : string :=
  (joinpath (spectrograms_path ds) (path_name audio_filename)
   +:+ ".spec.npy")%string.

(** [ConditionalDataset.__getitem__(idx)]. *)
Definition conditional_getitem (ds : dataset) (idx : Z)
  : result (gmap string pyval) :=
  audio_filename ← list_index (filenames ds) idx;
  signal ← torchaudio_load audio_filename;
  spectrogram ← np_load (spec_filename ds audio_filename);
  audio ← index0 signal;
  Ok {[ "audio" := PTensor audio;
        "spectrogram" := PTensor (transpose spectrogram) ]}.

(** [UnconditionalDataset.__getitem__(idx)]. *)
Definition unconditional_getitem (ds : dataset) (idx : Z)
  : result (gmap string pyval) :=
  audio_filename ← list_index (filenames ds) idx;
  signal ← torchaudio_load audio_filename;
  audio ← index0 signal;
  Ok {[ "audio" := PTensor audio; "spectrogram" := PNone ]}.

(** [lj_speech_from_path(cfg)]: the item function of the dataset that
    the flag selects. *)
Definition lj_speech_from_path (cfg : Collator.config) (ds : dataset)
  : Z -> result (gmap string pyval) :=
  if Collator.unconditional cfg then unconditional_getitem ds
  else conditional_getitem ds.

End Files.

End Dataset.

(** * Part II: properties *)

(** ** Facts about the schedule *)

Section ScheduleFacts.

Lemma cumprod_from_length acc l : length (cumprod_from acc l) = length l.
Proof. revert acc; induction l as [|x l IH]; intros acc; simpl; [done|]. by rewrite IH. Qed.





Lemma alpha_cum_length beta : length (alpha_cum_of beta) = length beta.
Proof.
  unfold alpha_cum_of, cumprod, alpha_of.
  by rewrite cumprod_from_length, length_map.
Qed.


End ScheduleFacts.

(** ** The schedule as computed *)

Section ScheduleSteps.



End ScheduleSteps.

Section Binary64Facts.

Import PrimFloat.








End Binary64Facts.

(** ** The reverse sampler *)

Import Sampler.

(** Unfolds the monadic plumbing of [result]. *)
Ltac unfold_result :=
  unfold mbind, result_bind, Py.bind, getitem, getattr, or_raise in *.

(** Resolves lookups in dictionaries written out key by key. *)
Ltac dict_lookup :=
  repeat first
    [ rewrite lookup_insert_eq
    | rewrite lookup_singleton_eq
    | rewrite lookup_insert_ne by done
    | rewrite lookup_singleton_ne by done
    | rewrite lookup_empty ].

Section SamplerFacts.

Context (call_self : tensor -> list nat -> pyval -> result tensor).

Lemma range_down_S (S : nat) : range_down (Datatypes.S S) = S :: range_down S.
Proof.
  unfold range_down. rewrite seq_S. simpl. by rewrite rev_app_distr.
Qed.

Lemma select_T_none cfg attrs S :
  inference_noise cfg = None -> select_T cfg attrs S = Ok (TList (seq 0 S)).
Proof. unfold select_T. by intros ->. Qed.

Lemma select_T_missing_attr cfg attrs S l :
  inference_noise cfg = Some l ->
  attrs !! "noise_shedule" = None ->
  select_T cfg attrs S = Raise AttributeError.
Proof. unfold select_T. intros -> H. unfold_result. by rewrite H. Qed.

(** With [T = None] the first iteration raises before the callee is
    reached, whatever the callee is. *)
Lemma step_TNone beta al ac sp n st :
  exists e, forall callee, step callee beta al ac TNone sp n st = Raise e.
Proof.
  destruct st as [audio g]. unfold step. unfold_result.
  destruct (al !! n); [|by eexists].
  destruct (beta !! n); [|by eexists].
  destruct (ac !! n); [|by eexists].
  destruct audio; by eexists.
Qed.

Lemma sampling_loop_TNone beta al ac sp st :
  (0 < length al)%nat ->
  exists e, forall callee,
    sampling_loop callee beta al ac TNone sp st = Raise e.
Proof.
  intros Hlen. unfold sampling_loop.
  destruct (length al) as [|S]; [lia|]. rewrite range_down_S. simpl.
  destruct (step_TNone beta al ac sp S st) as [e He].
  exists e. intros callee. unfold_result. by rewrite He.
Qed.

End SamplerFacts.

(** C10.  When an inference schedule is configured and the denoiser object
    has no attribute [noise_shedule], [forward] raises before the loop: the
    exception does not depend on the callee or on the generator, so no
    iteration is completed.  The re-indexing helper [adjust_Ts] returns
    [None], and a loop started with that value raises in its first
    iteration, again before the callee is reached. *)
Theorem inference_noise_never_usable
    (cfg : config) (attrs : gmap string (list R)) (x : gmap string pyval)
    (l : list R) :
  inference_noise cfg = Some l ->
  attrs !! "noise_shedule" = None ->
  (exists e, forall call_self g, forward call_self cfg attrs x g = Raise e) /\
  adjust_Ts l = TNone /\
  (forall beta al ac sp st, (0 < length al)%nat ->
     exists e, forall call_self,
       sampling_loop call_self beta al ac (adjust_Ts l) sp st = Raise e).
Proof.
  intros Hinf Hattr. split; [|split].
  - unfold forward. unfold_result.
    destruct (x !! "spectrogram"); [|by eexists].
    destruct (x !! "lang"); [|by eexists].
    destruct (attrs !! "noise_schedule") as [beta|]; [|by eexists].
    exists AttributeError. intros call_self g.
    by rewrite (select_T_missing_attr cfg attrs _ l Hinf Hattr).
  - reflexivity.
  - intros beta al ac sp st Hlen. by apply sampling_loop_TNone.
Qed.

(** The native schedule [0.5] configured as inference schedule. *)
Lemma inference_noise_never_usable_witness :
  exists e, forall call_self g,
    forward call_self (Sampler.mk_config (Some [/2]) false 256)
            {[ "noise_schedule" := [/2]; "noise_level" := [/2] ]}
            {[ "spectrogram" := PNone; "lang" := PNone ]} g = Raise e.
Proof.
  apply (inference_noise_never_usable
           (Sampler.mk_config (Some [/2]) false 256)
           {[ "noise_schedule" := [/2]; "noise_level" := [/2] ]}
           {[ "spectrogram" := PNone; "lang" := PNone ]} [/2]);
    [reflexivity | by vm_compute].
Defined.

Section LoopFacts.

Context (call_self : tensor -> list nat -> pyval -> result tensor).

Lemma alpha_of_length beta : length (alpha_of beta) = length beta.
Proof. unfold alpha_of. by rewrite length_map. Qed.

(** While [audio] is unbound the loop raises [UnboundLocalError] in its
    first iteration; over an empty schedule it leaves the state alone. *)
Lemma sampling_loop_unbound beta T sp g :
  sampling_loop call_self beta (alpha_of beta) (cumprod (alpha_of beta)) T sp
                (None, g)
  = if (length beta =? 0)%nat then Ok (None, g) else Raise UnboundLocalError.
Proof.
  unfold sampling_loop. rewrite alpha_of_length.
  destruct (length beta) as [|S] eqn:Hlen; [done|].
  rewrite range_down_S. simpl. unfold step. unfold_result.
  destruct (lookup_lt_is_Some_2 (alpha_of beta) S) as [a Ha].
  { rewrite alpha_of_length. lia. }
  destruct (lookup_lt_is_Some_2 beta S) as [b Hb]; [lia|].
  destruct (lookup_lt_is_Some_2 (cumprod (alpha_of beta)) S) as [c Hc].
  { pose proof (alpha_cum_length beta) as Hl. unfold alpha_cum_of in Hl. lia. }
  by rewrite Ha, Hb, Hc.
Qed.

End LoopFacts.

(** C5.  With the native schedule itself configured as inference schedule
    the guard of line 38 reads [self.model.noise_shedule]; on a denoiser
    object that carries [noise_schedule] and [noise_level] only, the call
    raises [AttributeError] instead of sampling as it does with no
    inference schedule. *)
Theorem native_inference_schedule_raises
    (call_self : tensor -> list nat -> pyval -> result tensor)
    (unc : bool) (hop : nat) (beta lv : list R) (sp lang : pyval)
    (g : torch_rng) :
  forward call_self (Sampler.mk_config (Some beta) unc hop)
          {[ "noise_schedule" := beta; "noise_level" := lv ]}
          {[ "spectrogram" := sp; "lang" := lang ]} g
  = Raise AttributeError.
Proof.
  unfold forward. unfold_result.
  dict_lookup.
  rewrite (select_T_missing_attr _ _ _ beta); [done|done|].
  by vm_compute.
Qed.

(** Conditional mode: a spectrogram of rank 2 gets a batch dimension of
    size 1 and the audio is noise of shape [[1, hop_samples * frames]]. *)
Lemma init_audio_rank2 cfg bins frames d g :
  unconditional cfg = false ->
  init_audio cfg (PTensor (Tensor.mk [bins; frames] d)) g
  = Ok (PTensor (Tensor.mk [1%nat; bins; frames] d),
        Some (randn [1%nat; (hop_samples cfg * frames)%nat] g).1,
        (randn [1%nat; (hop_samples cfg * frames)%nat] g).2).
Proof. unfold init_audio. by intros ->. Qed.

(** Conditional mode: a batched spectrogram is kept and the audio is noise
    of shape [[batch, hop_samples * frames]]. *)
Lemma init_audio_rank3 cfg batch bins frames d g :
  unconditional cfg = false ->
  init_audio cfg (PTensor (Tensor.mk [batch; bins; frames] d)) g
  = Ok (PTensor (Tensor.mk [batch; bins; frames] d),
        Some (randn [batch; (hop_samples cfg * frames)%nat] g).1,
        (randn [batch; (hop_samples cfg * frames)%nat] g).2).
Proof. unfold init_audio. by intros ->. Qed.

(** C6.  In conditional mode the initial audio is noise of shape
    [[batch, hop_samples * frames]], a spectrogram of rank 2 first getting
    a batch dimension of size 1.  In unconditional mode nothing assigns
    [audio] before the loop, so the call raises [UnboundLocalError] (in the
    first iteration, or at [return audio] when the schedule is empty)
    instead of starting from noise of a configured length. *)
Theorem initial_audio_by_mode :
  (forall inf hop bins frames d g,
     init_audio (Sampler.mk_config inf false hop)
                (PTensor (Tensor.mk [bins; frames] d)) g
     = Ok (PTensor (Tensor.mk [1%nat; bins; frames] d),
           Some (randn [1%nat; (hop * frames)%nat] g).1,
           (randn [1%nat; (hop * frames)%nat] g).2)) /\
  (forall inf hop batch bins frames d g,
     init_audio (Sampler.mk_config inf false hop)
                (PTensor (Tensor.mk [batch; bins; frames] d)) g
     = Ok (PTensor (Tensor.mk [batch; bins; frames] d),
           Some (randn [batch; (hop * frames)%nat] g).1,
           (randn [batch; (hop * frames)%nat] g).2)) /\
  (forall call_self hop beta sp lang g,
     forward call_self (Sampler.mk_config None true hop)
             {[ "noise_schedule" := beta ]}
             {[ "spectrogram" := sp; "lang" := lang ]} g
     = Raise UnboundLocalError).
Proof.
  split; [|split].
  - intros. by apply init_audio_rank2.
  - intros. by apply init_audio_rank3.
  - intros call_self hop beta sp lang g.
    unfold forward. unfold_result. dict_lookup.
    rewrite select_T_none by done. simpl.
    rewrite sampling_loop_unbound.
    by destruct (length beta =? 0)%nat.
Qed.

(** ** The loop with the callee of line 56 *)

Import Reentry.

Section ReentryFacts.

(** Entered with a tensor, [forward] raises at line 28. *)
Lemma forward_obj_tensor call_self cfg attrs a g :
  forward_obj call_self cfg attrs (OTensor a) g = Raise IndexError.
Proof. reflexivity. Qed.

Lemma self_call_raises fuel cfg attrs g a t sp :
  self_call (S fuel) cfg attrs g a t sp = Raise IndexError.
Proof. reflexivity. Qed.

Lemma self_call_never_returns fuel cfg attrs g a t sp :
  exists e, self_call fuel cfg attrs g a t sp = Raise e.
Proof. destruct fuel; by eexists. Qed.

(** An iteration whose callee never returns does not return. *)
Lemma step_never_returns callee beta al ac T sp n st :
  (forall a t s, exists e, callee a t s = Raise e) ->
  exists e, step callee beta al ac T sp n st = Raise e.
Proof.
  intros Hc. destruct st as [audio g]. unfold step. unfold_result.
  destruct (al !! n); [|by eexists].
  destruct (beta !! n); [|by eexists].
  destruct (ac !! n); [|by eexists].
  destruct audio as [a|]; [|by eexists].
  destruct (T_index T n) as [t|e]; [|by eexists].
  destruct (Hc a [t] sp) as [e ->]. by eexists.
Qed.

Lemma sampling_loop_never_returns callee beta al ac T sp st :
  (forall a t s, exists e, callee a t s = Raise e) ->
  (0 < length al)%nat ->
  exists e, sampling_loop callee beta al ac T sp st = Raise e.
Proof.
  intros Hc Hlen. unfold sampling_loop.
  destruct (length al) as [|S]; [lia|]. rewrite range_down_S. cbn [run].
  destruct (step_never_returns callee beta al ac T sp S st Hc) as [e He].
  exists e. unfold_result. by rewrite He.
Qed.

(** Over the identity sequence and with audio bound, the first iteration
    reaches the callee, and what the callee raises leaves the loop. *)
Lemma sampling_loop_first_call callee e beta sp a g :
  (forall a t s, callee a t s = Raise e) ->
  (0 < length beta)%nat ->
  sampling_loop callee beta (alpha_of beta) (cumprod (alpha_of beta))
                (TList (seq 0 (length (cumprod (alpha_of beta))))) sp
                (Some a, g)
  = Raise e.
Proof.
  intros Hc Hpos. unfold sampling_loop. fold (alpha_cum_of beta).
  rewrite alpha_cum_length, alpha_of_length.
  destruct (length beta) as [|S] eqn:HS; [lia|].
  rewrite range_down_S. cbn [run]. unfold step, T_index. unfold_result.
  destruct (lookup_lt_is_Some_2 (alpha_of beta) S) as [a_n ->];
    [rewrite alpha_of_length; lia|].
  destruct (lookup_lt_is_Some_2 beta S) as [b_n ->]; [lia|].
  destruct (lookup_lt_is_Some_2 (alpha_cum_of beta) S) as [ac_n ->];
    [rewrite alpha_cum_length; lia|].
  rewrite lookup_seq_lt by lia. by rewrite Hc.
Qed.

(** Once the initial audio is drawn, [forward] with its own callee raises
    the [IndexError] of the re-entry. *)
Lemma forward_self_after_init fuel cfg attrs beta (x : gmap string pyval)
    spv lang sp' a g g' :
  inference_noise cfg = None ->
  attrs !! "noise_schedule" = Some beta ->
  (0 < length beta)%nat ->
  x !! "spectrogram" = Some spv ->
  x !! "lang" = Some lang ->
  init_audio cfg spv g = Ok (sp', Some a, g') ->
  forward_self (S fuel) cfg attrs (ODict x) g = Raise IndexError.
Proof.
  intros Hinf Hsched Hpos Hsp Hlang Hinit.
  unfold forward_self, forward_obj, subscript. unfold_result.
  rewrite Hsp, Hlang, Hsched, select_T_none by done.
  rewrite Hinit.
  by rewrite (sampling_loop_first_call _ IndexError).
Qed.

End ReentryFacts.

(** C1.  With no inference schedule [T] is the identity sequence, and the
    first iteration of the loop reaches line 56.  The call there is
    [self(audio, torch.tensor([T[n]]), spectrogram)]: it re-enters
    [forward] with the audio tensor as [x], and [x["spectrogram"]] raises
    [IndexError].  So over every non-empty schedule a conditional call of
    [forward] raises [IndexError] in its first iteration: the denoiser is
    invoked at no timestep and no update of the audio is computed. *)
Theorem loop_call_reenters_forward :
  (forall unc hop attrs S,
     select_T (Sampler.mk_config None unc hop) attrs S
     = Ok (TList (seq 0 S))) /\
  (forall call_self cfg attrs a g,
     forward_obj call_self cfg attrs (OTensor a) g = Raise IndexError) /\
  (forall fuel cfg attrs g a t sp,
     self_call (S fuel) cfg attrs g a t sp = Raise IndexError) /\
  (forall fuel hop attrs b beta batch bins frames d lang g,
     forward_self (S fuel) (Sampler.mk_config None false hop)
       (<[ "noise_schedule" := b :: beta ]> attrs)
       (ODict {[ "spectrogram" := PTensor (Tensor.mk [batch; bins; frames] d);
                 "lang" := lang ]}) g
     = Raise IndexError).
Proof.
  split; [|split; [|split]].
  - intros. by apply select_T_none.
  - intros. apply forward_obj_tensor.
  - intros. apply self_call_raises.
  - intros fuel hop attrs b beta batch bins frames d lang g.
    eapply (forward_self_after_init fuel _ _ (b :: beta));
      [done | by rewrite lookup_insert_eq | simpl; lia
      | by dict_lookup | by dict_lookup | by apply init_audio_rank3].
Qed.

(** C7.  With a single step the loop has one iteration, [n = 0], and it
    is the one that reaches line 56: the re-entry of [forward] raises
    [IndexError] before the update, the noise branch and [torch.clamp],
    for a spectrogram with or without batch dimension.  Whatever
    the spectrogram is, the call ends in an exception: no output is
    produced, clamped or not. *)
Theorem single_step_sampling_raises :
  (forall fuel hop attrs b bins frames d lang g,
     forward_self (S fuel) (Sampler.mk_config None false hop)
       (<[ "noise_schedule" := [b] ]> attrs)
       (ODict {[ "spectrogram" := PTensor (Tensor.mk [bins; frames] d);
                 "lang" := lang ]}) g
     = Raise IndexError) /\
  (forall fuel hop attrs b batch bins frames d lang g,
     forward_self (S fuel) (Sampler.mk_config None false hop)
       (<[ "noise_schedule" := [b] ]> attrs)
       (ODict {[ "spectrogram" := PTensor (Tensor.mk [batch; bins; frames] d);
                 "lang" := lang ]}) g
     = Raise IndexError) /\
  (forall fuel hop attrs b sp lang g,
     exists e,
       forward_self fuel (Sampler.mk_config None false hop)
         (<[ "noise_schedule" := [b] ]> attrs)
         (ODict {[ "spectrogram" := sp; "lang" := lang ]}) g
       = Raise e).
Proof.
  split; [|split].
  - intros fuel hop attrs b bins frames d lang g.
    eapply (forward_self_after_init fuel _ _ [b]);
      [done | by rewrite lookup_insert_eq | simpl; lia
      | by dict_lookup | by dict_lookup | by apply init_audio_rank2].
  - intros fuel hop attrs b batch bins frames d lang g.
    eapply (forward_self_after_init fuel _ _ [b]);
      [done | by rewrite lookup_insert_eq | simpl; lia
      | by dict_lookup | by dict_lookup | by apply init_audio_rank3].
  - intros fuel hop attrs b sp lang g.
    unfold forward_self, forward_obj, subscript. unfold_result.
    dict_lookup. rewrite select_T_none by done.
    destruct (init_audio _ sp g) as [[[sp' audio] g']|e]; [|by eexists].
    destruct (sampling_loop_never_returns (self_call fuel
                (Sampler.mk_config None false hop)
                (<[ "noise_schedule" := [b] ]> attrs) g)
                [b] (alpha_of [b]) (cumprod (alpha_of [b]))
                (TList (seq 0 (length (cumprod (alpha_of [b])))))
                sp' (audio, g')) as [e He].
    + intros. apply self_call_never_returns.
    + simpl. lia.
    + exists e. by rewrite He.
Qed.

(** ** Facts about tensors *)

Section TensorFacts.

Lemma bshape_rev_diag s : bshape_rev s s = Some s.
Proof.
  induction s as [|d s IH]; [done|]. simpl. rewrite IH.
  by rewrite Nat.eqb_refl.
Qed.

Lemma broadcast_shapes_diag s : broadcast_shapes s s = Some s.
Proof.
  unfold broadcast_shapes. rewrite bshape_rev_diag. by rewrite rev_involutive.
Qed.

End TensorFacts.

(** ** Broadcasting on two-dimensional tensors *)

Section Broadcast2.

Lemma unravel2 N T i j :
  (j < T)%nat -> unravel [N; T] (i * T + j) = [i; j].
Proof.
  intros Hj. cbn [unravel numel foldr]. rewrite Nat.mul_1_r.
  rewrite Nat.div_add_l, Nat.div_small, Nat.add_0_r by lia.
  rewrite Nat.add_comm, Nat.Div0.mod_add, Nat.mod_small by lia.
  by rewrite Nat.div_1_r.
Qed.

(** An operand of the full shape is read at the same position. *)
Lemma bget_full t N T i j :
  shape t = [N; T] -> (i < N)%nat -> (j < T)%nat ->
  bget t [N; T] (i * T + j) = nth (i * T + j) (data t) 0.
Proof.
  intros Hs Hi Hj. unfold bget. rewrite Hs, unravel2 by done.
  unfold align. simpl.
  destruct (Nat.eqb_spec N 1) as [->|_], (Nat.eqb_spec T 1) as [->|_];
    simpl; f_equal; lia.
Qed.

(** A column operand of shape [[N, 1]] is read at the row. *)
Lemma bget_column t N T i j :
  shape t = [N; 1%nat] -> (i < N)%nat -> (j < T)%nat ->
  bget t [N; T] (i * T + j) = nth i (data t) 0.
Proof.
  intros Hs Hi Hj. unfold bget. rewrite Hs, unravel2 by done.
  unfold align. simpl.
  destruct (Nat.eqb_spec N 1) as [->|_]; simpl; f_equal; lia.
Qed.

Lemma broadcast_column N T : broadcast_shapes [N; 1%nat] [N; T] = Some [N; T].
Proof.
  unfold broadcast_shapes. simpl. rewrite Nat.eqb_refl.
  by destruct T as [|[|T]].
Qed.

Lemma numel2 N T : numel [N; T] = (N * T)%nat.
Proof. simpl. lia. Qed.

Lemma flat_index_lt N T i j :
  (i < N)%nat -> (j < T)%nat -> (i * T + j < N * T)%nat.
Proof. intros Hi Hj. nia. Qed.

(** Entry [k] of a tensor built position by position. *)
Lemma nth_tabulate (f : nat -> R) n k :
  (k < n)%nat -> nth k (map f (seq 0 n)) 0 = f k.
Proof.
  intros Hk. rewrite (nth_indep _ 0 (f 0%nat)) by (by rewrite length_map, length_seq).
  rewrite (map_nth f (seq 0 n) 0%nat k). by rewrite seq_nth.
Qed.

(** A column times a matrix: row [i] is scaled by entry [i]. *)
Lemma binop_column f c m N T :
  shape c = [N; 1%nat] -> shape m = [N; T] ->
  exists r, binop f c m = Ok r /\ shape r = [N; T] /\
    forall i j, (i < N)%nat -> (j < T)%nat ->
      nth (i * T + j) (data r) 0
      = f (nth i (data c) 0) (nth (i * T + j) (data m) 0).
Proof.
  intros Hc Hm. unfold binop. rewrite Hc, Hm, broadcast_column.
  eexists. split; [reflexivity|]. split; [done|].
  intros i j Hi Hj. cbn [data].
  rewrite nth_tabulate by (rewrite numel2; by apply flat_index_lt).
  by rewrite bget_column, bget_full.
Qed.

(** Two matrices of one shape combine entry by entry. *)
Lemma binop_full f a b N T :
  shape a = [N; T] -> shape b = [N; T] ->
  exists r, binop f a b = Ok r /\ shape r = [N; T] /\
    forall i j, (i < N)%nat -> (j < T)%nat ->
      nth (i * T + j) (data r) 0
      = f (nth (i * T + j) (data a) 0) (nth (i * T + j) (data b) 0).
Proof.
  intros Ha Hb. unfold binop. rewrite Ha, Hb, broadcast_shapes_diag.
  eexists. split; [reflexivity|]. split; [done|].
  intros i j Hi Hj. cbn [data].
  rewrite nth_tabulate by (rewrite numel2; by apply flat_index_lt).
  by rewrite !bget_full.
Qed.

Lemma bget_all_zero t so k : all_zero t -> bget t so k = 0.
Proof.
  unfold all_zero, bget. intros Hz.
  destruct (nth_in_or_default (ravel (shape t) (align (shape t) (unravel so k)))
              (data t) 0) as [Hin | ->]; [|done].
  rewrite Forall_forall in Hz. apply Hz. by apply list_elem_of_In.
Qed.

(** A product with an all-zero right operand is all zero. *)
Lemma binop_mult_zero a b r :
  binop Rmult a b = Ok r -> all_zero b -> all_zero r.
Proof.
  unfold binop. destruct (broadcast_shapes _ _) as [so|]; [|done].
  intros [= <-] Hz. unfold all_zero. simpl.
  apply Forall_fmap, Forall_forall. intros k _. simpl.
  rewrite (bget_all_zero b) by done. lra.
Qed.

Lemma binop_plus_zero a b r :
  binop Rplus a b = Ok r -> all_zero a -> all_zero b -> all_zero r.
Proof.
  unfold binop. destruct (broadcast_shapes _ _) as [so|]; [|done].
  intros [= <-] Ha Hb. unfold all_zero. simpl.
  apply Forall_fmap, Forall_forall. intros k _. simpl.
  rewrite (bget_all_zero a), (bget_all_zero b) by done. lra.
Qed.

End Broadcast2.

(** ** The training step *)

Import Training.

Section TrainingFacts.

Lemma nth_map_lt (f : R -> R) l i :
  (i < length l)%nat -> nth i (map f l) 0 = f (nth i l 0).
Proof.
  intros Hi. rewrite (nth_indep _ 0 (f 0)) by (by rewrite length_map).
  apply map_nth.
Qed.

Lemma gather_spec table t :
  Forall (fun i => (i < length table)%nat) t ->
  exists levels, gather table t = Ok levels /\
    length levels = length t /\
    forall i ti, t !! i = Some ti ->
      exists lv, table !! ti = Some lv /\ nth i levels 0 = lv.
Proof.
  induction t as [|ti t IH]; intros Ht.
  - exists []. by repeat split.
  - apply Forall_cons in Ht as [Hti Ht].
    destruct (IH Ht) as [levels [Hg [Hlen Hlv]]].
    destruct (lookup_lt_is_Some_2 table ti Hti) as [v Hv].
    exists (v :: levels). simpl. unfold_result. rewrite Hv, Hg.
    split; [done|]. split; [simpl; by rewrite Hlen|].
    intros [|i] tj Hi; simpl in Hi.
    + simplify_eq. by exists v.
    + by apply Hlv.
Qed.

Lemma randint_spec high n g :
  (0 < high)%nat ->
  exists t, randint high n g = Ok (t, advance g n) /\
    length t = n /\ Forall (fun ti => (ti < high)%nat) t.
Proof.
  intros Hh. unfold randint.
  destruct (Nat.eqb_spec high 0) as [|_]; [lia|].
  eexists. split; [reflexivity|]. split.
  - by rewrite length_map, length_seq.
  - apply Forall_fmap, Forall_forall. intros k _. simpl.
    apply Nat.mod_upper_bound. lia.
Qed.

End TrainingFacts.

Section TrainingStepFacts.

Context (call_model : tensor -> list nat -> pyval -> result tensor).
Context (loss : tensor -> tensor -> result R).

(** The step hands the noisy audio and the timesteps to the denoiser and
    returns the loss between the noise and the squeezed prediction. *)
Lemma training_step_of_corrupt attrs (batch : gmap string pyval) g
    audio sp t noise noisy g' predicted p l :
  batch !! "audio" = Some (PTensor audio) ->
  batch !! "spectrogram" = Some sp ->
  corrupt attrs audio g = Ok (t, noise, noisy, g') ->
  call_model noisy t sp = Ok predicted ->
  squeeze1 predicted = Ok p ->
  loss noise p = Ok l ->
  training_step call_model loss [] attrs batch g
  = Ok (l, [("train_Loss"%string, l)], g').
Proof.
  intros Ha Hs Hc Hm Hp Hl. unfold training_step. unfold_result.
  rewrite Ha, Hs. cbn [as_tensor]. rewrite Hc, Hm, Hp, Hl. done.
Qed.

End TrainingStepFacts.

Section CorruptFacts.

(** A stream of integers that starts with [ts] yields [ts] itself when
    its first entries are reduced modulo a bound above them. *)
Lemma draws_of_list (ts : list nat) (S : nat) :
  Forall (fun ti => (ti < S)%nat) ts ->
  map (fun k => (nth k ts 0 mod S)%nat) (seq 0 (length ts)) = ts.
Proof.
  intros Hlt. apply list_eq. intros i. rewrite list_lookup_fmap.
  destruct (decide (i < length ts)%nat) as [Hi|Hi].
  - rewrite lookup_seq_lt by done. simpl.
    destruct (lookup_lt_is_Some_2 ts i Hi) as [x Hx]. rewrite Hx.
    rewrite (nth_lookup_Some ts i 0%nat x Hx).
    rewrite Forall_lookup in Hlt.
    by rewrite Nat.mod_small by (by apply (Hlt i)).
  - rewrite lookup_seq_ge by lia. simpl. symmetry.
    apply lookup_ge_None_2. lia.
Qed.

(** Lines 94-100 on a batch of shape [[N, T]]: what is drawn, what is
    left of the generator, and every sample of the noisy audio. *)
Lemma corrupt_run (attrs : gmap string (list R)) audio g N T beta table :
  shape audio = [N; T] ->
  attrs !! "noise_schedule" = Some beta ->
  attrs !! "noise_level" = Some table ->
  (0 < length beta)%nat ->
  (length beta <= length table)%nat ->
  let t := map (fun k => (integers g k mod length beta)%nat)
               (seq (cursor g) N) in
  let noise := Tensor.mk [N; T]
                 (map (normals g) (seq (cursor g + N) (numel [N; T]))) in
  exists noisy,
    corrupt attrs audio g
    = Ok (t, noise, noisy, advance (advance g N) (numel [N; T])) /\
    shape noisy = [N; T] /\
    (forall i j ti, (i < N)%nat -> (j < T)%nat -> t !! i = Some ti ->
       exists level, table !! ti = Some level /\
         nth (i * T + j) (data noisy) 0
         = sqrt level * nth (i * T + j) (data audio) 0
           + sqrt (1 - level) * nth (i * T + j) (data noise) 0) /\
    (all_zero audio -> all_zero noise -> all_zero noisy).
Proof.
  intros Hshape Hsched Htable Hpos Hle t noise.
  assert (randint (length beta) N g = Ok (t, advance g N)) as Hr.
  { unfold randint. by destruct (Nat.eqb_spec (length beta) 0); [lia|]. }
  assert (length t = N) as Hlen.
  { unfold t. by rewrite length_map, length_seq. }
  assert (Forall (fun ti => (ti < length table)%nat) t) as Hlt.
  { unfold t. apply Forall_fmap, Forall_forall. intros k _. simpl.
    pose proof (Nat.mod_upper_bound (integers g k) (length beta)). lia. }
  destruct (gather_spec table t Hlt) as [levels [Hg [Hllen Hlv]]].
  set (noise_scale := Tensor.mk [length t; 1%nat] levels).
  assert (randn_like audio (advance g N)
          = (noise, advance (advance g N) (numel [N; T]))) as Hnoise.
  { unfold randn_like, randn. by rewrite Hshape. }
  destruct (binop_column Rmult (pow_half noise_scale) audio N T)
    as [sig [Hsig [Hsigs Hsigv]]]; [simpl; by rewrite Hlen|done|].
  destruct (binop_column Rmult (pow_half (one_minus noise_scale)) noise N T)
    as [nz [Hnz [Hnzs Hnzv]]]; [simpl; by rewrite Hlen|done|].
  destruct (binop_full Rplus sig nz N T) as [noisy [Hsum [Hsums Hsumv]]];
    [done|done|].
  exists noisy. split; [|split; [done|split]].
  - unfold corrupt, unpack2. rewrite Hshape. unfold_result.
    rewrite Hsched, Hr, Htable, Hg. unfold unsqueeze1. cbn [shape data].
    fold noise_scale. rewrite Hnoise, Hsig, Hnz, Hsum. done.
  - intros i j ti Hi Hj Hti.
    destruct (Hlv i ti Hti) as [level [Hlook Hnth]].
    exists level. split; [done|].
    rewrite Hsumv, Hsigv, Hnzv by done. simpl.
    rewrite !nth_map_lt; [|lia|rewrite length_map; lia|lia].
    by rewrite Hnth.
  - intros Hza Hzn.
    eapply binop_plus_zero; [exact Hsum| |]; eapply binop_mult_zero; eauto.
Qed.

(** Only the length of the schedule is read from [noise_schedule]. *)
Lemma corrupt_reads_length (attrs : gmap string (list R)) audio g beta beta' :
  attrs !! "noise_schedule" = Some beta ->
  length beta' = length beta ->
  corrupt (<[ "noise_schedule" := beta' ]> attrs) audio g
  = corrupt attrs audio g.
Proof.
  intros Hsched Hlen. unfold corrupt. unfold_result.
  rewrite lookup_insert_eq, lookup_insert_ne by done.
  by rewrite Hsched, Hlen.
Qed.

End CorruptFacts.

(** C2.  For a batch of [N] examples of [T] samples, a schedule of
    [S >= 1] steps and a table [noise_level] with entries in [[0, 1]],
    the training step takes the next [N] integers of the generator,
    reduced to [[0, S)], as timesteps, and the next [N * T] normal draws
    as noise, and leaves the generator advanced by both.  Every list of
    [N] timesteps in [[0, S)] is the draw of some generator state.  The
    level of example [i] is the entry of the table at its timestep, and
    every sample of the noisy audio is
    [sqrt(level) * audio + sqrt(1 - level) * noise].  Of [noise_schedule]
    only the length is read: the levels are not recomputed from beta.
    All-zero audio with all-zero noise gives all-zero noisy audio
    whatever the timesteps. *)
Theorem corrupt_mixes_by_table
    (attrs : gmap string (list R)) (audio : tensor) (g : torch_rng)
    (N T : nat) (beta table : list R) :
  shape audio = [N; T] ->
  attrs !! "noise_schedule" = Some beta ->
  attrs !! "noise_level" = Some table ->
  (0 < length beta)%nat ->
  (length beta <= length table)%nat ->
  Forall (fun level => 0 <= level <= 1) table ->
  let t := map (fun k => (integers g k mod length beta)%nat)
               (seq (cursor g) N) in
  let noise := Tensor.mk [N; T]
                 (map (normals g) (seq (cursor g + N) (N * T))) in
  exists noisy_audio,
    corrupt attrs audio g
    = Ok (t, noise, noisy_audio, advance (advance g N) (N * T)) /\
    length t = N /\
    Forall (fun ti => (ti < length beta)%nat) t /\
    shape noisy_audio = [N; T] /\
    (forall i j ti, (i < N)%nat -> (j < T)%nat -> t !! i = Some ti ->
       exists level, table !! ti = Some level /\
         nth (i * T + j) (data noisy_audio) 0
         = sqrt level * nth (i * T + j) (data audio) 0
           + sqrt (1 - level) * nth (i * T + j) (data noise) 0) /\
    (forall ts, length ts = N ->
       Forall (fun ti => (ti < length beta)%nat) ts ->
       exists g0 noise0 noisy0 g0',
         corrupt attrs audio g0 = Ok (ts, noise0, noisy0, g0')) /\
    (forall beta', length beta' = length beta ->
       corrupt (<[ "noise_schedule" := beta' ]> attrs) audio g
       = corrupt attrs audio g) /\
    (all_zero audio -> all_zero noise -> all_zero noisy_audio).
Proof.
  intros Hshape Hsched Htable Hpos Hle Hunit t noise.
  destruct (corrupt_run attrs audio g N T beta table Hshape Hsched Htable
              Hpos Hle) as [noisy [Hc [Hs [Hv Hz]]]].
  rewrite numel2 in Hc, Hv, Hz.
  exists noisy.
  split; [exact Hc|]. split; [|split; [|split; [exact Hs|split; [exact Hv|]]]].
  - unfold t. by rewrite length_map, length_seq.
  - unfold t. apply Forall_fmap, Forall_forall. intros k _. simpl.
    apply Nat.mod_upper_bound. lia.
  - split; [|split; [|exact Hz]].
    + intros ts Hlen Hlt.
      destruct (corrupt_run attrs audio
                  (mk_rng (normals g) (fun k => nth k ts 0%nat) 0)
                  N T beta table Hshape Hsched Htable Hpos Hle)
        as [noisy0 [Hc0 _]].
      cbn [integers cursor] in Hc0. rewrite <- Hlen in Hc0 at 1.
      rewrite (draws_of_list ts (length beta) Hlt) in Hc0.
      by eexists _, _, _, _.
    + intros beta' Hlen. by apply (corrupt_reads_length attrs audio g beta).
Qed.

(** One example of two samples over three steps: the draw 7 is reduced
    to timestep 1, the noise is the next two normal draws, and three
    draws are consumed. *)
Lemma corrupt_mixes_by_table_witness :
  exists noisy_audio,
    corrupt {[ "noise_schedule" := [/2; /2; /2];
               "noise_level" := [/2; /4; /8] ]}
            (Tensor.mk [1; 2]%nat [1; 0])
            (mk_rng (fun _ => 3) (fun _ => 7%nat) 0)
    = Ok ([1%nat], Tensor.mk [1; 2]%nat [3; 3], noisy_audio,
          mk_rng (fun _ => 3) (fun _ => 7%nat) 3) /\
    shape noisy_audio = [1; 2]%nat /\
    nth 0 (data noisy_audio) 0 = sqrt (/4) * 1 + sqrt (1 - /4) * 3.
Proof.
  destruct (corrupt_mixes_by_table
              {[ "noise_schedule" := [/2; /2; /2];
                 "noise_level" := [/2; /4; /8] ]}
              (Tensor.mk [1; 2]%nat [1; 0])
              (mk_rng (fun _ => 3) (fun _ => 7%nat) 0)
              1 2 [/2; /2; /2] [/2; /4; /8])
    as [noisy [Hc [_ [_ [Hs [Hv _]]]]]];
    [reflexivity | reflexivity | reflexivity | simpl; lia | simpl; lia
    | repeat constructor; lra |].
  exists noisy. split; [exact Hc|]. split; [exact Hs|].
  destruct (Hv 0%nat 0%nat 1%nat) as [level [Hl Hn]];
    [lia | lia | reflexivity |].
  injection Hl as <-. exact Hn.
Defined.

(** ** The collator *)

Import Collator.

Section CropFacts.

(** The window of a one-dimensional clip.  With [k] the number of samples
    the slice finds, the result has exactly [stop - start] samples: the
    [k] samples followed by zeros; except that a slice of exactly one
    sample is squeezed to a 0-dimensional tensor, on which [len] raises
    [TypeError]. *)
Lemma crop_audio_clip t L start stop :
  clip L t ->
  (start <= stop)%nat ->
  let lo := Nat.min start L in
  let k := (Nat.min stop L - lo)%nat in
  crop_audio (PTensor t) start stop
  = if (k =? 1)%nat then Raise TypeError
    else Ok (Tensor.mk [(stop - start)%nat]
               (take k (drop lo (data t)) ++ replicate (stop - start - k) 0)).
Proof.
  intros [Hs Hd] Hle lo k.
  unfold crop_audio, slice_tensor, slice0. rewrite Hs. unfold_result.
  cbn [numel foldr]. rewrite !Nat.mul_1_r.
  replace (Nat.max (Nat.min start L) (Nat.min stop L) - Nat.min start L)%nat
    with k by (unfold k, lo; lia).
  fold lo. unfold squeeze. cbn [shape data].
  destruct (Nat.eqb_spec k 1) as [Hk|Hk].
  - rewrite Hk. reflexivity.
  - rewrite (filter_cons_True (fun d => d <> 1%nat) k []) by done.
    rewrite filter_nil. unfold len, pad_right. cbn [shape data last].
    replace (Z.of_nat k + (Z.of_nat stop - Z.of_nat start - Z.of_nat k))%Z
      with (Z.of_nat (stop - start)) by lia.
    destruct (Z.ltb_spec (Z.of_nat (stop - start)) 0) as [|_]; [lia|].
    rewrite Nat2Z.id. cbn [removelast numel foldr chunks map concat app].
    rewrite app_nil_r.
    assert (length (take k (drop lo (data t))) = k) as Hlen.
    { rewrite length_take, length_drop. unfold k, lo. lia. }
    assert (k <= stop - start)%nat as Hk' by (unfold k, lo; lia).
    f_equal. rewrite take_take, Nat.min_id.
    rewrite take_ge; [done|].
    rewrite length_app, length_replicate, Hlen. lia.
Qed.

(** The window has the requested length whenever the call returns. *)
Lemma crop_audio_clip_length t L start stop w :
  clip L t -> (start <= stop)%nat ->
  crop_audio (PTensor t) start stop = Ok w ->
  clip (stop - start) w.
Proof.
  intros Hc Hle. rewrite (crop_audio_clip t L) by done.
  destruct (_ =? 1)%nat; [done|]. intros [= <-]. split; [done|]. simpl.
  destruct Hc as [_ Hd].
  rewrite length_app, length_replicate, length_take, length_drop. lia.
Qed.

(** A window of one sample inside the clip always raises. *)
Lemma crop_audio_single_sample t L start :
  clip L t -> (start < L)%nat ->
  crop_audio (PTensor t) start (start + 1) = Raise TypeError.
Proof.
  intros Hc Hlt. rewrite (crop_audio_clip t L) by (done || lia).
  replace (Nat.min (start + 1) L - Nat.min start L)%nat with 1%nat by lia.
  reflexivity.
Qed.

End CropFacts.

Section RecordFacts.

Lemma py_randint0_spec hi g :
  (0 <= hi)%Z ->
  exists start, py_randint0 hi g = Ok (start, mk_py (raw g) (S (pos g))) /\
    (start <= Z.to_nat hi)%nat.
Proof.
  intros Hhi. unfold py_randint0.
  destruct (Z.ltb_spec hi 0) as [|_]; [lia|].
  eexists. split; [reflexivity|].
  pose proof (Nat.mod_upper_bound (raw g (pos g)) (Z.to_nat hi + 1)). lia.
Qed.

Lemma len_clip L t : clip L t -> len t = Ok L.
Proof. intros [Hs _]. unfold len. by rewrite Hs. Qed.

Lemma shape_last_clip L t : clip L t -> shape_last t = Ok L.
Proof. intros [Hs _]. unfold shape_last. by rewrite Hs. Qed.

(** Unconditional mode, a clip long enough, and a configured length other
    than 1: the record keeps a window of exactly [audio_len] samples that
    starts at an offset in [[0, L - audio_len]]. *)
Lemma collate_record_unconditional cfg (r : record) g t L :
  unconditional cfg = true ->
  r !! "audio" = Some (PTensor t) ->
  clip L t ->
  (audio_len cfg <= L)%nat ->
  audio_len cfg <> 1%nat ->
  exists start,
    (start <= L - audio_len cfg)%nat /\
    collate_record cfg r g
    = Ok (<["audio" := PTensor (Tensor.mk [audio_len cfg]
                                  (take (audio_len cfg) (drop start (data t))))]> r,
          mk_py (raw g) (S (pos g))) /\
    length (take (audio_len cfg) (drop start (data t))) = audio_len cfg.
Proof.
  intros Hun Haudio Hclip Hle Hne.
  destruct (py_randint0_spec (Z.of_nat L - Z.of_nat (audio_len cfg)) g)
    as [start [Hr Hstart]]; [lia|].
  exists start. split; [lia|]. split.
  - unfold collate_record. rewrite Hun. unfold_result. rewrite Haudio.
    cbn [pylen as_tensor]. rewrite (len_clip L), (shape_last_clip L) by done.
    destruct (Nat.ltb_spec L (audio_len cfg)) as [|_]; [lia|].
    rewrite Hr. rewrite (crop_audio_clip t L) by (done || lia).
    replace (Nat.min (start + audio_len cfg) L - Nat.min start L)%nat
      with (audio_len cfg) by lia.
    destruct (Nat.eqb_spec (audio_len cfg) 1) as [|_]; [done|].
    replace (start + audio_len cfg - start - audio_len cfg)%nat with 0%nat
      by lia.
    replace (start + audio_len cfg - start)%nat with (audio_len cfg) by lia.
    replace (Nat.min start L) with start by lia.
    cbn [replicate]. by rewrite app_nil_r.
  - destruct Hclip as [_ Hd]. rewrite length_take, length_drop. lia.
Qed.

(** Conditional mode, a spectrogram with enough frames: the frame offset
    lies in [[0, frames - crop_mel_frames]], the record keeps the
    transposed frames [[start, start + crop_mel_frames)], the audio is cut at
    both bounds times [hop_samples], and when the cut returns a window it
    has exactly [crop_mel_frames * hop_samples] samples. *)
Lemma collate_record_conditional cfg (r : record) g sp frames bins t L :
  unconditional cfg = false ->
  r !! "spectrogram" = Some (PTensor sp) ->
  shape sp = frames :: bins ->
  r !! "audio" = Some (PTensor t) ->
  clip L t ->
  (crop_mel_frames cfg <= frames)%nat ->
  exists start win,
    (start <= frames - crop_mel_frames cfg)%nat /\
    slice0 sp start (start + crop_mel_frames cfg) = Ok win /\
    shape win = crop_mel_frames cfg :: bins /\
    collate_record cfg r g
    = (w ← crop_audio (PTensor t) (start * hop_samples cfg)
                       ((start + crop_mel_frames cfg) * hop_samples cfg);
       Ok (<["audio" := PTensor w]>
             (<["spectrogram" := PTensor (transpose win)]> r),
           mk_py (raw g) (S (pos g)))) /\
    (forall w,
       crop_audio (PTensor t) (start * hop_samples cfg)
                  ((start + crop_mel_frames cfg) * hop_samples cfg) = Ok w ->
       clip (crop_mel_frames cfg * hop_samples cfg) w).
Proof.
  intros Hun Hsp Hshape Haudio Hclip Hle.
  destruct (py_randint0_spec (Z.of_nat frames - Z.of_nat (crop_mel_frames cfg)) g)
    as [start [Hr Hstart]]; [lia|].
  exists start.
  assert (exists win, slice0 sp start (start + crop_mel_frames cfg) = Ok win /\
            shape win = crop_mel_frames cfg :: bins) as [win [Hwin Hws]].
  { unfold slice0. rewrite Hshape. eexists. split; [reflexivity|].
    cbn [shape]. f_equal. lia. }
  exists win. split; [lia|]. split; [done|]. split; [done|]. split.
  - unfold collate_record. rewrite Hun. unfold_result. rewrite Hsp.
    cbn [pylen as_tensor]. unfold len, shape_first. rewrite Hshape.
    cbn [head or_raise].
    destruct (Nat.ltb_spec frames (crop_mel_frames cfg)) as [|_]; [lia|].
    unfold or_raise. rewrite Hr, Hwin.
    rewrite lookup_insert_ne by done. by rewrite Haudio.
  - intros w Hw.
    replace (crop_mel_frames cfg * hop_samples cfg)%nat
      with ((start + crop_mel_frames cfg) * hop_samples cfg
            - start * hop_samples cfg)%nat by lia.
    eapply crop_audio_clip_length; [exact Hclip| |exact Hw]. nia.
Qed.

(** A record that fails the length test loses both keys and draws nothing
    from the generator. *)
Lemma collate_record_filtered cfg (r : record) g :
  filtered_out cfg r ->
  collate_record cfg r g = Ok (delete "audio" (delete "spectrogram" r), g).
Proof.
  intros (audio & spectrogram & n & Ha & Hs & Hshort).
  unfold collate_record, drop_record, del. unfold_result.
  destruct (unconditional cfg).
  - destruct Hshort as [Hlen Hlt]. rewrite Ha, Hlen.
    destruct (Nat.ltb_spec n (audio_len cfg)) as [_|]; [|lia].
    rewrite Hs. rewrite lookup_delete_ne by done. by rewrite Ha.
  - destruct Hshort as [Hlen Hlt]. rewrite Hs, Hlen.
    destruct (Nat.ltb_spec n (crop_mel_frames cfg)) as [_|]; [|lia].
    rewrite lookup_delete_ne by done. by rewrite Ha.
Qed.

Lemma collate_records_filtered cfg minibatch g :
  Forall (filtered_out cfg) minibatch ->
  collate_records cfg minibatch g
  = Ok (map (fun r : record => delete "audio" (delete "spectrogram" r))
            minibatch, g).
Proof.
  induction minibatch as [|r rest IH]; intros Hall; [done|].
  apply Forall_cons in Hall as [Hr Hrest]. cbn [collate_records].
  rewrite collate_record_filtered by done. unfold_result.
  rewrite IH by done. done.
Qed.

Lemma present_audio_deleted (rs : list record) :
  present "audio"
    (map (fun r : record => delete "audio" (delete "spectrogram" r)) rs) = [].
Proof.
  induction rs as [|r rs IH]; [done|]. unfold present in *. simpl.
  rewrite lookup_delete_eq. exact IH.
Qed.

(** A clip of two samples fails the length test at [audio_len = 4]. *)
Lemma short_clip_filtered_out :
  filtered_out (Collator.mk_config true 4 2 256)
    {[ "audio" := PTensor (Tensor.mk [2%nat] [0; 0]);
       "spectrogram" := PNone ]}.
Proof.
  exists (PTensor (Tensor.mk [2%nat] [0; 0])), PNone, 2%nat.
  split; [reflexivity|]. split; [reflexivity|]. simpl. split; [reflexivity|lia].
Qed.

End RecordFacts.

(** C3, at [audio_len = 1].  A clip of three samples passes the length
    test, the window of one sample is squeezed to a 0-dimensional tensor,
    and [len] of it raises [TypeError]: no window of length 1 comes out,
    whatever the generator draws. *)
Theorem unit_audio_len_raises
    (crop hop : nat) (a b c : R) (spectrogram : pyval) (g : py_random) :
  collate (Collator.mk_config true 1 crop hop)
          [ {[ "audio" := PTensor (Tensor.mk [3%nat] [a; b; c]);
               "spectrogram" := spectrogram ]} ] g
  = Raise TypeError.
Proof.
  unfold collate. cbn [collate_records]. unfold collate_record.
  cbn [unconditional audio_len]. unfold_result. dict_lookup.
  cbn [pylen len shape as_tensor]. unfold shape_last. cbn [shape last].
  destruct (py_randint0_spec (Z.of_nat 3 - Z.of_nat 1) g) as [start [Hr Hs]];
    [lia|].
  cbn [or_raise]. rewrite Hr.
  rewrite (crop_audio_single_sample _ 3); [done|done|simpl in Hs; lia].
Qed.

(** C4, at [hop_samples = 1] and [crop_mel_frames = 1].  A spectrogram of
    three frames with its three samples of audio passes the length test;
    the audio window of one sample is squeezed to a 0-dimensional tensor
    and [len] of it raises [TypeError], whatever the generator draws. *)
Theorem unit_frame_window_raises
    (alen : nat) (a b c x y z : R) (g : py_random) :
  collate (Collator.mk_config false alen 1 1)
          [ {[ "audio" := PTensor (Tensor.mk [3%nat] [a; b; c]);
               "spectrogram" := PTensor (Tensor.mk [3; 1]%nat [x; y; z]) ]} ] g
  = Raise TypeError.
Proof.
  set (r := ({[ "audio" := PTensor (Tensor.mk [3%nat] [a; b; c]);
                "spectrogram" := PTensor (Tensor.mk [3; 1]%nat [x; y; z]) ]}
             : gmap string pyval)).
  destruct (collate_record_conditional (Collator.mk_config false alen 1 1)
              r g (Tensor.mk [3; 1]%nat [x; y; z]) 3 [1%nat]
              (Tensor.mk [3%nat] [a; b; c]) 3)
    as (start & win & Hstart & _ & _ & Hrec & _);
    [done|by unfold r; dict_lookup|done|by unfold r; dict_lookup|done
    |simpl; lia|].
  unfold collate. cbn [collate_records]. rewrite Hrec.
  cbn [crop_mel_frames hop_samples] in *. rewrite !Nat.mul_1_r.
  rewrite (crop_audio_single_sample _ 3); [done|done|lia].
Qed.

(** C9, as the code has it.  When every record fails the length test the
    list handed to [torch.stack] is empty and the call raises the
    [RuntimeError] of [torch.stack]; no batch is returned. *)
Theorem all_filtered_raises_from_stack
    (cfg : Collator.config) (minibatch : list record) (g : py_random) :
  Forall (filtered_out cfg) minibatch ->
  collate cfg minibatch g = Raise RuntimeError.
Proof.
  intros Hall. unfold collate.
  rewrite collate_records_filtered by done. unfold_result.
  by rewrite present_audio_deleted.
Qed.

(** One clip of two samples against [audio_len = 4]. *)
Lemma all_filtered_raises_from_stack_witness :
  collate (Collator.mk_config true 4 2 256)
          [ {[ "audio" := PTensor (Tensor.mk [2%nat] [0; 0]);
               "spectrogram" := PNone ]} ]
          (mk_py (fun _ => 0%nat) 0)
  = Raise RuntimeError.
Proof.
  apply all_filtered_raises_from_stack.
  constructor; [apply short_clip_filtered_out|constructor].
Defined.

(** C9 as stated fails: the exception that reaches the caller is not
    [EmptyBatchError]. *)
Lemma empty_batch_error_counterexample :
  collate (Collator.mk_config true 4 2 256)
          [ {[ "audio" := PTensor (Tensor.mk [2%nat] [0; 0]);
               "spectrogram" := PNone ]} ]
          (mk_py (fun _ => 0%nat) 0)
  <> Raise EmptyBatchError.
Proof.
  unfold collate. rewrite collate_records_filtered.
  - unfold_result. rewrite present_audio_deleted. discriminate.
  - constructor; [apply short_clip_filtered_out|constructor].
Qed.

(** ** Batches of unconditional mode *)

Section BatchFacts.

Context (cfg : Collator.config).
Hypothesis Hun : unconditional cfg = true.
Hypothesis Hlen1 : audio_len cfg <> 1%nat.

Lemma passes_filtered_out r : filtered_out cfg r -> passes cfg r = false.
Proof.
  intros (audio & sp & n & Ha & _ & Hshort). rewrite Hun in Hshort.
  destruct Hshort as [Hn Hlt]. unfold passes. rewrite Ha, Hn.
  by destruct (Nat.ltb_spec n (audio_len cfg)); [|lia].
Qed.

Lemma passes_long_clip r : long_clip cfg r -> passes cfg r = true.
Proof.
  intros (t & L & Ha & Hclip & Hle). unfold passes. rewrite Ha.
  cbn [pylen]. rewrite (len_clip L) by done.
  by destruct (Nat.ltb_spec L (audio_len cfg)); [lia|].
Qed.

(** After the loop the records that passed the test carry, in order, one
    window of [audio_len] samples each; the others carry no audio; the
    generator has made one draw per surviving record. *)
Lemma collate_records_unconditional minibatch : forall g,
  Forall (fun r => filtered_out cfg r \/ long_clip cfg r) minibatch ->
  exists rs ws,
    collate_records cfg minibatch g
    = Ok (rs, mk_py (raw g)
                    (pos g + length (List.filter (passes cfg) minibatch))) /\
    present "audio" rs = map PTensor ws /\
    Forall (clip (audio_len cfg)) ws /\
    length ws = length (List.filter (passes cfg) minibatch).
Proof.
  induction minibatch as [|r rest IH]; intros g Hall.
  - exists [], []. cbn. rewrite Nat.add_0_r. by destruct g.
  - apply Forall_cons in Hall as [Hr Hrest]. cbn [collate_records List.filter].
    destruct Hr as [Hout|Hlong].
    + rewrite collate_record_filtered by done.
      rewrite passes_filtered_out by done.
      destruct (IH g Hrest) as (rs & ws & Hrs & Hp & Hws & Hk).
      unfold_result. rewrite Hrs.
      exists (delete "audio" (delete "spectrogram" r) :: rs), ws.
      split; [done|]. split; [|done].
      unfold present in *. cbn [omap list_omap].
      by rewrite lookup_delete_eq.
    + rewrite passes_long_clip by done.
      destruct Hlong as (t & L & Ha & Hclip & Hle).
      destruct (collate_record_unconditional cfg r g t L Hun Ha Hclip Hle Hlen1)
        as (start & Hstart & Hrec & Hwl).
      rewrite Hrec.
      destruct (IH (mk_py (raw g) (S (pos g))) Hrest)
        as (rs & ws & Hrs & Hp & Hws & Hk).
      unfold_result. rewrite Hrs. cbn [raw pos length].
      eexists (_ :: rs), (_ :: ws).
      split; [by rewrite Nat.add_succ_r|].
      split; [|split].
      * unfold present in *. cbn [omap list_omap].
        rewrite lookup_insert_eq. cbn [map]. by rewrite Hp.
      * constructor; [|done]. by split.
      * cbn [length]. by rewrite Hk.
Qed.

Lemma tensors_PTensor ws : tensors (map PTensor ws) = Ok ws.
Proof.
  induction ws as [|w ws IH]; [done|]. cbn [map tensors]. unfold_result.
  by rewrite IH.
Qed.

Lemma stack_clips n ws :
  ws <> [] -> Forall (clip n) ws ->
  exists a, stack ws = Ok a /\ shape a = [length ws; n].
Proof.
  intros Hne Hall. destruct ws as [|w ws]; [done|]. unfold stack.
  assert (forallb (fun u => bool_decide (shape u = shape w)) (w :: ws) = true)
    as ->.
  { apply forallb_forall. intros u Hu. apply bool_decide_eq_true.
    rewrite Forall_forall in Hall.
    destruct (Hall w) as [-> _]; [by left|].
    destruct (Hall u) as [-> _]; [by apply list_elem_of_In|]. done. }
  eexists. split; [reflexivity|]. cbn [shape].
  apply Forall_cons in Hall as [[-> _] _]. done.
Qed.

(** Unconditional mode with [audio_len <> 1]: when at least one clip is
    long enough, the batch stacks one window of exactly [audio_len] samples
    per clip that passed the test, and the spectrogram entry is [None]. *)
Lemma collate_unconditional minibatch g :
  Forall (fun r => filtered_out cfg r \/ long_clip cfg r) minibatch ->
  Exists (long_clip cfg) minibatch ->
  exists a k,
    k = length (List.filter (passes cfg) minibatch) /\
    (0 < k)%nat /\
    collate cfg minibatch g
    = Ok ({[ "audio" := PTensor a; "spectrogram" := PNone ]},
          mk_py (raw g) (pos g + k)) /\
    shape a = [k; audio_len cfg].
Proof.
  intros Hall Hex.
  destruct (collate_records_unconditional minibatch g Hall)
    as (rs & ws & Hrs & Hp & Hws & Hk).
  assert (0 < length (List.filter (passes cfg) minibatch))%nat as Hpos.
  { apply Exists_exists in Hex as (r & Hin & Hlong).
    assert (In r (List.filter (passes cfg) minibatch)) as Hin'.
    { apply filter_In. split; [by apply list_elem_of_In|].
      by apply passes_long_clip. }
    destruct (List.filter (passes cfg) minibatch); [done|]. simpl. lia. }
  destruct (stack_clips (audio_len cfg) ws) as (a & Hst & Hsh);
    [by destruct ws; [simpl in Hk; lia|]|done|].
  exists a, (length (List.filter (passes cfg) minibatch)).
  split; [done|]. split; [done|]. split.
  - unfold collate. rewrite Hrs. unfold_result. unfold torch_stack.
    rewrite Hp, tensors_PTensor. unfold_result. by rewrite Hst, Hun.
  - by rewrite Hsh, Hk.
Qed.

End BatchFacts.

(** * Part III: further properties of the code *)

Section ForwardPrefix.

Context (call_self : tensor -> list nat -> pyval -> result tensor).
Context (cfg : Sampler.config) (attrs : gmap string (list R)).
Context (x : gmap string pyval) (beta : list R) (lang : pyval).
Context (batch bins frames : nat) (d : list R).

Let sp := Tensor.mk [batch; bins; frames] d.
Let dims := [batch; (Sampler.hop_samples cfg * frames)%nat].

Hypothesis Hinf : inference_noise cfg = None.
Hypothesis Hcond : Sampler.unconditional cfg = false.
Hypothesis Hsched : attrs !! "noise_schedule" = Some beta.
Hypothesis Hsp : x !! "spectrogram" = Some (PTensor sp).
Hypothesis Hlang : x !! "lang" = Some lang.

(** Up to the loop, [forward] has drawn the initial noise and chosen the
    identity sequence. *)
Lemma forward_reaches_loop g :
  forward call_self cfg attrs x g
  = ('(audio, g') ← sampling_loop call_self beta (alpha_of beta)
                     (alpha_cum_of beta) (TList (seq 0 (length beta)))
                     (PTensor sp) (Some (randn dims g).1, (randn dims g).2);
     audio ← or_raise UnboundLocalError audio;
     Ok (audio, g')).
Proof.
  unfold forward. unfold_result. rewrite Hsp, Hlang, Hsched.
  rewrite select_T_none by done.
  unfold sp. rewrite init_audio_rank3 by done.
  fold (alpha_cum_of beta). by rewrite alpha_cum_length.
Qed.

End ForwardPrefix.

(** X3.  Over an empty schedule the loop does not run: [forward] returns
    the initial noise as drawn, not clamped, whatever the callee is. *)
Theorem forward_empty_schedule
    (call_self : tensor -> list nat -> pyval -> result tensor)
    (cfg : Sampler.config) (attrs : gmap string (list R))
    (x : gmap string pyval) (lang : pyval)
    (batch bins frames : nat) (d : list R) (g : torch_rng) :
  inference_noise cfg = None ->
  Sampler.unconditional cfg = false ->
  attrs !! "noise_schedule" = Some [] ->
  x !! "spectrogram" = Some (PTensor (Tensor.mk [batch; bins; frames] d)) ->
  x !! "lang" = Some lang ->
  forward call_self cfg attrs x g
  = Ok (randn [batch; (Sampler.hop_samples cfg * frames)%nat] g).
Proof.
  intros Hinf Hcond Hsched Hsp Hlang.
  rewrite (forward_reaches_loop call_self cfg attrs x [] lang batch bins
             frames d Hinf Hcond Hsched Hsp Hlang).
  reflexivity.
Qed.

(** X4.  A failure of the callee reaches the caller unchanged: when the
    first call (on the initial noise, at timestep [S - 1]) raises [e],
    [forward] raises [e]. *)
Theorem forward_propagates_callee_failure
    (call_self : tensor -> list nat -> pyval -> result tensor)
    (cfg : Sampler.config) (attrs : gmap string (list R))
    (x : gmap string pyval) (beta : list R) (lang : pyval)
    (batch bins frames : nat) (d : list R) (g : torch_rng) (e : exn) :
  inference_noise cfg = None ->
  Sampler.unconditional cfg = false ->
  attrs !! "noise_schedule" = Some beta ->
  x !! "spectrogram" = Some (PTensor (Tensor.mk [batch; bins; frames] d)) ->
  x !! "lang" = Some lang ->
  (0 < length beta)%nat ->
  call_self (randn [batch; (Sampler.hop_samples cfg * frames)%nat] g).1
            [(length beta - 1)%nat]
            (PTensor (Tensor.mk [batch; bins; frames] d)) = Raise e ->
  forward call_self cfg attrs x g = Raise e.
Proof.
  intros Hinf Hcond Hsched Hsp Hlang Hpos Hcall.
  rewrite (forward_reaches_loop call_self cfg attrs x beta lang batch bins
             frames d Hinf Hcond Hsched Hsp Hlang).
  unfold sampling_loop. rewrite alpha_of_length.
  destruct (length beta) as [|S] eqn:HS; [lia|].
  rewrite range_down_S. cbn [run]. unfold step, T_index. unfold_result.
  destruct (lookup_lt_is_Some_2 (alpha_of beta) S) as [a_n ->];
    [rewrite alpha_of_length; lia|].
  destruct (lookup_lt_is_Some_2 beta S) as [b_n ->]; [lia|].
  destruct (lookup_lt_is_Some_2 (alpha_cum_of beta) S) as [ac_n ->];
    [rewrite alpha_cum_length; lia|].
  rewrite lookup_seq_lt by lia. cbn [Nat.add].
  replace (Datatypes.S S - 1)%nat with S in Hcall by lia.
  by rewrite Hcall.
Qed.

Lemma forward_empty_schedule_witness :
  forward (fun _ _ _ => Raise (CalleeError 0)) (Sampler.mk_config None false 2)
          {[ "noise_schedule" := [] ]}
          {[ "spectrogram" := PTensor (Tensor.mk [1; 3; 1]%nat [0; 0; 0]);
             "lang" := PNone ]}
          (mk_rng (fun _ => 3) (fun _ => 0%nat) 0)
  = Ok (randn [1; 2]%nat (mk_rng (fun _ => 3) (fun _ => 0%nat) 0)).
Proof.
  apply (forward_empty_schedule
           (fun _ _ _ => Raise (CalleeError 0)) (Sampler.mk_config None false 2)
           {[ "noise_schedule" := [] ]}
           {[ "spectrogram" := PTensor (Tensor.mk [1; 3; 1]%nat [0; 0; 0]);
              "lang" := PNone ]}
           PNone 1 3 1 [0; 0; 0]);
    reflexivity.
Defined.

Lemma forward_propagates_callee_failure_witness :
  forward (fun _ _ _ => Raise (CalleeError 7)) (Sampler.mk_config None false 2)
          {[ "noise_schedule" := [/2; /4] ]}
          {[ "spectrogram" := PTensor (Tensor.mk [1; 3; 1]%nat [0; 0; 0]);
             "lang" := PNone ]}
          (mk_rng (fun _ => 3) (fun _ => 0%nat) 0)
  = Raise (CalleeError 7).
Proof.
  apply (forward_propagates_callee_failure
           (fun _ _ _ => Raise (CalleeError 7)) (Sampler.mk_config None false 2)
           {[ "noise_schedule" := [/2; /4] ]}
           {[ "spectrogram" := PTensor (Tensor.mk [1; 3; 1]%nat [0; 0; 0]);
              "lang" := PNone ]}
           [/2; /4] PNone 1 3 1 [0; 0; 0]);
    [reflexivity | reflexivity | reflexivity | reflexivity | reflexivity
    | simpl; lia | reflexivity].
Defined.

(** X1.  Over a non-empty schedule [forward] never returns: whatever the
    configuration, the attributes, the argument and the generator, and at
    every depth allowed to the re-entry of line 56, the call ends in an
    exception. *)
Theorem forward_never_returns
    (fuel : nat) (cfg : Sampler.config) (attrs : gmap string (list R))
    (x : pyobj) (g : torch_rng) (beta : list R) :
  attrs !! "noise_schedule" = Some beta ->
  (0 < length beta)%nat ->
  exists e, forward_self fuel cfg attrs x g = Raise e.
Proof.
  intros Hsched Hpos. unfold forward_self, forward_obj. unfold_result.
  destruct (subscript x "spectrogram") as [spv|e]; [|by eexists].
  destruct (subscript x "lang") as [lang|e]; [|by eexists].
  rewrite Hsched.
  destruct (select_T cfg attrs _) as [T|e]; [|by eexists].
  destruct (init_audio cfg spv g) as [[[sp' audio] g']|e]; [|by eexists].
  destruct (sampling_loop_never_returns (self_call fuel cfg attrs g)
              beta (alpha_of beta) (cumprod (alpha_of beta)) T sp'
              (audio, g')) as [e He].
  - intros. apply self_call_never_returns.
  - rewrite alpha_of_length. lia.
  - exists e. by rewrite He.
Qed.

Lemma forward_never_returns_witness :
  exists e,
    forward_self 1 (Sampler.mk_config None false 2)
      {[ "noise_schedule" := [/2; /4] ]}
      (ODict {[ "spectrogram" := PTensor (Tensor.mk [1; 3; 1]%nat [0; 0; 0]);
                "lang" := PNone ]})
      (mk_rng (fun _ => 3) (fun _ => 0%nat) 0)
    = Raise e.
Proof.
  apply (forward_never_returns 1 (Sampler.mk_config None false 2)
           {[ "noise_schedule" := [/2; /4] ]}
           (ODict {[ "spectrogram" := PTensor (Tensor.mk [1; 3; 1]%nat [0; 0; 0]);
                     "lang" := PNone ]})
           (mk_rng (fun _ => 3) (fun _ => 0%nat) 0) [/2; /4]);
    [reflexivity | simpl; lia].
Defined.

(** X6.  A batch returned by [Collator.collate] has no key ["lang"], and
    [forward] reads [x["lang"]] before anything else can fail: handing a
    collated batch to [forward] (as [predict_step] does) raises
    [KeyError]. *)
Theorem forward_rejects_collated_batch
    (call_self : tensor -> list nat -> pyval -> result tensor)
    (cfg : Sampler.config) (attrs : gmap string (list R)) (g : torch_rng)
    (ccfg : Collator.config) (minibatch : list record)
    (pg pg' : py_random) (batch : gmap string pyval) :
  collate ccfg minibatch pg = Ok (batch, pg') ->
  predict_step call_self cfg attrs batch g = Raise KeyError.
Proof.
  unfold collate. unfold_result.
  destruct (collate_records ccfg minibatch pg) as [[rs g1]|]; [|done].
  destruct (torch_stack (present "audio" rs)) as [audio|]; [|done].
  destruct (Collator.unconditional ccfg).
  - intros [= <- _]. unfold predict_step, forward. unfold_result.
    by dict_lookup.
  - destruct (torch_stack (present "spectrogram" rs)) as [sp|]; [|done].
    intros [= <- _]. unfold predict_step, forward. unfold_result.
    by dict_lookup.
Qed.

(** One clip of two samples collated at [audio_len = 2], then handed to
    [predict_step]. *)
Lemma forward_rejects_collated_batch_witness :
  exists batch pg',
    collate (Collator.mk_config true 2 1 1)
            [ {[ "audio" := PTensor (Tensor.mk [2%nat] [0; 0]);
                 "spectrogram" := PNone ]} ]
            (mk_py (fun _ => 0%nat) 0)
    = Ok (batch, pg') /\
    predict_step (fun a _ _ => unsqueeze1 a) (Sampler.mk_config None true 1)
                 {[ "noise_schedule" := [/2] ]} batch
                 (mk_rng (fun _ => 0) (fun _ => 0%nat) 0)
    = Raise KeyError.
Proof.
  assert (long_clip (Collator.mk_config true 2 1 1)
            {[ "audio" := PTensor (Tensor.mk [2%nat] [0; 0]);
               "spectrogram" := PNone ]}) as Hlong.
  { exists (Tensor.mk [2%nat] [0; 0]), 2%nat.
    split; [reflexivity|]. split; [by split|simpl; lia]. }
  destruct (collate_unconditional (Collator.mk_config true 2 1 1)
              eq_refl ltac:(simpl; lia)
              [ {[ "audio" := PTensor (Tensor.mk [2%nat] [0; 0]);
                   "spectrogram" := PNone ]} ]
              (mk_py (fun _ => 0%nat) 0))
    as (a & k & _ & _ & Hc & _).
  { constructor; [by right|constructor]. }
  { by constructor. }
  eexists _, _. split; [exact Hc|].
  exact (forward_rejects_collated_batch _ _ _ _ _ _ _ _ _ Hc).
Defined.

(** ** Training, validation and test steps *)

Import Evaluation.

Section StepErrors.

Context (call_model : tensor -> list nat -> pyval -> result tensor).
Context (loss : tensor -> tensor -> result R).
Context (metrics : list (string * (tensor -> tensor -> result R))).

Lemma log_scores_values prefix ms noise predicted :
  match log_metrics ms noise predicted with
  | Ok logs =>
      exists logs', log_scores prefix ms noise predicted = Ok logs' /\
                    map snd logs' = map snd logs
  | Raise e => log_scores prefix ms noise predicted = Raise e
  end.
Proof.
  induction ms as [|[name metric] ms IH]; cbn [log_metrics log_scores].
  - by exists [].
  - unfold_result. destruct (squeeze1 predicted) as [p|]; [|done].
    destruct (metric noise p) as [score|]; [|done].
    destruct (log_metrics ms noise predicted) as [logs|].
    + destruct IH as [logs' [-> Hv]]. eexists. split; [reflexivity|].
      cbn [map snd]. by rewrite Hv.
    + by rewrite IH.
Qed.

End StepErrors.

(** X8.  [validation_step] and [test_step] repeat [training_step]: from
    the same generator they draw the same timesteps and noise, fail with
    the same exception, and otherwise log the loss that [training_step]
    returns (under [val_Loss] and [test_Loss]), the same metric values, and
    leave the same generator. *)
Theorem evaluation_steps_mirror_training
    (call_model : tensor -> list nat -> pyval -> result tensor)
    (loss : tensor -> tensor -> result R)
    (metrics : list (string * (tensor -> tensor -> result R)))
    (attrs : gmap string (list R)) (batch : gmap string pyval)
    (g : torch_rng) :
  match training_step call_model loss metrics attrs batch g with
  | Ok (l, logs, g') =>
      exists vlogs tlogs,
        validation_step call_model loss metrics attrs batch g
        = Ok (("val_Loss"%string, l) :: vlogs, g') /\
        test_step call_model loss metrics attrs batch g
        = Ok (("test_Loss"%string, l) :: tlogs, g') /\
        map snd vlogs = map snd (tail logs) /\
        map snd tlogs = map snd (tail logs)
  | Raise e =>
      validation_step call_model loss metrics attrs batch g = Raise e /\
      test_step call_model loss metrics attrs batch g = Raise e
  end.
Proof.
  unfold training_step, validation_step, test_step, evaluation_step.
  unfold_result.
  destruct (batch !! "audio") as [audio|]; [|done].
  destruct (batch !! "spectrogram") as [sp|]; [|done].
  destruct (as_tensor audio) as [a|]; [|done].
  destruct (corrupt attrs a g) as [[[[t noise] noisy] g']|]; [|done].
  destruct (call_model noisy t sp) as [predicted|]; [|done].
  destruct (squeeze1 predicted) as [p|]; [|done].
  destruct (loss noise p) as [l|]; [|done].
  pose proof (log_scores_values "val_" metrics noise predicted) as Hv.
  pose proof (log_scores_values "test_" metrics noise predicted) as Ht.
  destruct (log_metrics metrics noise predicted) as [logs|].
  - destruct Hv as [vlogs [-> Hv]]. destruct Ht as [tlogs [-> Ht]].
    by exists vlogs, tlogs.
  - by rewrite Hv, Ht.
Qed.

(** X9.  [training_step] unpacks [audio.shape] into two names: for audio
    of any other rank it raises [ValueError] before a timestep is drawn or
    the denoiser is called. *)
Theorem training_step_needs_rank_two
    (call_model : tensor -> list nat -> pyval -> result tensor)
    (loss : tensor -> tensor -> result R)
    (metrics : list (string * (tensor -> tensor -> result R)))
    (attrs : gmap string (list R)) (batch : gmap string pyval)
    (g : torch_rng) (audio : tensor) (sp : pyval) :
  batch !! "audio" = Some (PTensor audio) ->
  batch !! "spectrogram" = Some sp ->
  rank audio <> 2%nat ->
  training_step call_model loss metrics attrs batch g = Raise ValueError.
Proof.
  intros Ha Hs Hrank. unfold training_step, corrupt, unpack2. unfold_result.
  rewrite Ha, Hs. cbn [as_tensor]. unfold rank in Hrank.
  destruct (shape audio) as [|N [|T [|? ?]]]; done.
Qed.

Lemma training_step_needs_rank_two_witness :
  training_step (fun a _ _ => Ok a) (fun _ _ => Ok 0) []
                {[ "noise_schedule" := [/2]; "noise_level" := [/2] ]}
                {[ "audio" := PTensor (Tensor.mk [4%nat] [0; 0; 0; 0]);
                   "spectrogram" := PNone ]}
                (mk_rng (fun _ => 0) (fun _ => 0%nat) 0)
  = Raise ValueError.
Proof.
  apply (training_step_needs_rank_two _ _ _ _ _ _
           (Tensor.mk [4%nat] [0; 0; 0; 0]) PNone);
    [reflexivity | reflexivity | unfold rank; simpl; lia].
Defined.

(** X10.  With an empty noise schedule [torch.randint(0, 0, [N])] has an
    empty range: [training_step] raises [RuntimeError] before the denoiser
    is called. *)
Theorem training_step_empty_schedule
    (call_model : tensor -> list nat -> pyval -> result tensor)
    (loss : tensor -> tensor -> result R)
    (metrics : list (string * (tensor -> tensor -> result R)))
    (attrs : gmap string (list R)) (batch : gmap string pyval)
    (g : torch_rng) (audio : tensor) (sp : pyval) :
  batch !! "audio" = Some (PTensor audio) ->
  batch !! "spectrogram" = Some sp ->
  rank audio = 2%nat ->
  attrs !! "noise_schedule" = Some [] ->
  training_step call_model loss metrics attrs batch g = Raise RuntimeError.
Proof.
  intros Ha Hs Hrank Hsched.
  unfold training_step, corrupt, unpack2. unfold_result.
  rewrite Ha, Hs. cbn [as_tensor]. unfold rank in Hrank.
  destruct (shape audio) as [|N [|T [|? ?]]]; try done.
  by rewrite Hsched.
Qed.

Lemma training_step_empty_schedule_witness :
  training_step (fun a _ _ => Ok a) (fun _ _ => Ok 0) []
                {[ "noise_schedule" := []; "noise_level" := [] ]}
                {[ "audio" := PTensor (Tensor.mk [1; 2]%nat [0; 0]);
                   "spectrogram" := PNone ]}
                (mk_rng (fun _ => 0) (fun _ => 0%nat) 0)
  = Raise RuntimeError.
Proof.
  apply (training_step_empty_schedule _ _ _ _ _ _
           (Tensor.mk [1; 2]%nat [0; 0]) PNone);
    reflexivity.
Defined.

(** ** Windows and batches of the collator *)

(** X12.  Unconditional mode with [audio_len <> 1], every record either
    too short (and carrying both keys) or a clip of at least [audio_len]
    samples, at least one of the latter: [collate] returns a batch whose
    audio has shape [[k, audio_len]] with [k] the number of clips that
    pass the length test, whose spectrogram entry is [None], and draws one
    offset per surviving clip (none for a dropped one). *)
Theorem unconditional_batch_one_window_per_long_clip
    (cfg : Collator.config) (minibatch : list record) (g : py_random) :
  Collator.unconditional cfg = true ->
  audio_len cfg <> 1%nat ->
  Forall (fun r => filtered_out cfg r \/ long_clip cfg r) minibatch ->
  Exists (long_clip cfg) minibatch ->
  exists a k,
    k = length (List.filter (passes cfg) minibatch) /\
    (0 < k)%nat /\
    collate cfg minibatch g
    = Ok ({[ "audio" := PTensor a; "spectrogram" := PNone ]},
          mk_py (raw g) (pos g + k)) /\
    shape a = [k; audio_len cfg].
Proof. intros Hun Hne. by apply collate_unconditional. Qed.

(** One clip of two samples and one of ten, at [audio_len = 4]: a batch of
    one window. *)
Lemma unconditional_batch_one_window_per_long_clip_witness :
  exists a,
    collate (Collator.mk_config true 4 2 256)
            [ {[ "audio" := PTensor (Tensor.mk [2%nat] [0; 0]);
                 "spectrogram" := PNone ]};
              {[ "audio" := PTensor (Tensor.mk [10%nat]
                                       [0; 1; 2; 3; 4; 5; 6; 7; 8; 9]);
                 "spectrogram" := PNone ]} ]
            (mk_py (fun _ => 12%nat) 0)
    = Ok ({[ "audio" := PTensor a; "spectrogram" := PNone ]},
          mk_py (fun _ => 12%nat) 1) /\
    shape a = [1; 4]%nat.
Proof.
  destruct (unconditional_batch_one_window_per_long_clip
              (Collator.mk_config true 4 2 256)
              [ {[ "audio" := PTensor (Tensor.mk [2%nat] [0; 0]);
                   "spectrogram" := PNone ]};
                {[ "audio" := PTensor (Tensor.mk [10%nat]
                                         [0; 1; 2; 3; 4; 5; 6; 7; 8; 9]);
                   "spectrogram" := PNone ]} ]
              (mk_py (fun _ => 12%nat) 0))
    as (a & k & Hk & _ & Hc & Hs).
  - reflexivity.
  - simpl. lia.
  - constructor; [left; apply short_clip_filtered_out|].
    constructor; [|constructor]. right.
    exists (Tensor.mk [10%nat] [0; 1; 2; 3; 4; 5; 6; 7; 8; 9]), 10%nat.
    split; [reflexivity|]. split; [by split|simpl; lia].
  - apply Exists_cons_tl, Exists_cons_hd.
    exists (Tensor.mk [10%nat] [0; 1; 2; 3; 4; 5; 6; 7; 8; 9]), 10%nat.
    split; [reflexivity|]. split; [by split|simpl; lia].
  - exists a. subst k. split; [exact Hc|exact Hs].
Defined.

(** X13.  Unconditional mode, a clip of [L >= audio_len] samples,
    [audio_len <> 1]: the record keeps the [audio_len] consecutive samples
    of the clip that start at an offset in [[0, L - audio_len]]; no sample
    is altered and nothing is padded. *)
Theorem unconditional_window_is_contiguous
    (cfg : Collator.config) (r : record) (g : py_random)
    (t : tensor) (L : nat) :
  Collator.unconditional cfg = true ->
  r !! "audio" = Some (PTensor t) ->
  clip L t ->
  (audio_len cfg <= L)%nat ->
  audio_len cfg <> 1%nat ->
  exists start,
    (start <= L - audio_len cfg)%nat /\
    collate_record cfg r g
    = Ok (<["audio" := PTensor (Tensor.mk [audio_len cfg]
                                  (take (audio_len cfg) (drop start (data t))))]> r,
          mk_py (raw g) (S (pos g))) /\
    length (take (audio_len cfg) (drop start (data t))) = audio_len cfg.
Proof. apply collate_record_unconditional. Qed.

(** A clip of ten samples at [audio_len = 4]: the offset lies in
    [[0, 6]]. *)
Lemma unconditional_window_is_contiguous_witness :
  exists start,
    (start <= 6)%nat /\
    collate_record (Collator.mk_config true 4 2 256)
      {[ "audio" := PTensor (Tensor.mk [10%nat] [0; 1; 2; 3; 4; 5; 6; 7; 8; 9]);
         "spectrogram" := PNone ]}
      (mk_py (fun _ => 12%nat) 0)
    = Ok (<["audio" := PTensor (Tensor.mk [4%nat]
                                  (take 4 (drop start
                                             [0; 1; 2; 3; 4; 5; 6; 7; 8; 9])))]>
            {[ "audio" := PTensor (Tensor.mk [10%nat]
                                     [0; 1; 2; 3; 4; 5; 6; 7; 8; 9]);
               "spectrogram" := PNone ]},
          mk_py (fun _ => 12%nat) 1).
Proof.
  destruct (unconditional_window_is_contiguous
              (Collator.mk_config true 4 2 256)
              {[ "audio" := PTensor (Tensor.mk [10%nat]
                                       [0; 1; 2; 3; 4; 5; 6; 7; 8; 9]);
                 "spectrogram" := PNone ]}
              (mk_py (fun _ => 12%nat) 0)
              (Tensor.mk [10%nat] [0; 1; 2; 3; 4; 5; 6; 7; 8; 9]) 10)
    as (start & Hs & Hc & _);
    [reflexivity | reflexivity | by split | simpl; lia | simpl; lia |].
  exists start. split; [exact Hs|exact Hc].
Defined.

(** X14.  The window [[start, stop)] of a one-dimensional clip of [L]
    samples: with [k] the number of samples the slice finds (the bounds cut
    at [L]), the result is those [k] samples followed by
    [stop - start - k] zeros, [stop - start] samples in all; except that a
    slice of exactly one sample raises [TypeError]. *)
Theorem window_is_samples_then_zeros
    (t : tensor) (L start stop : nat) :
  clip L t ->
  (start <= stop)%nat ->
  crop_audio (PTensor t) start stop
  = if (Nat.min stop L - Nat.min start L =? 1)%nat then Raise TypeError
    else Ok (Tensor.mk [(stop - start)%nat]
               (take (Nat.min stop L - Nat.min start L)
                     (drop (Nat.min start L) (data t))
                ++ replicate (stop - start - (Nat.min stop L - Nat.min start L))
                             0)).
Proof. intros Hc Hle. by apply (crop_audio_clip t L). Qed.

(** The last two of four samples and two zeros. *)
Lemma window_is_samples_then_zeros_witness :
  crop_audio (PTensor (Tensor.mk [4%nat] [1; 2; 3; 4])) 2 6
  = Ok (Tensor.mk [4%nat] [3; 4; 0; 0]).
Proof.
  rewrite (window_is_samples_then_zeros (Tensor.mk [4%nat] [1; 2; 3; 4]) 4 2 6);
    [reflexivity | by split | lia].
Defined.

(** X15.  Cropping and padding keep the samples in range: when every
    sample of the clip lies in [[lo, hi]] and [lo <= 0 <= hi], so does
    every sample of the window. *)
Theorem window_keeps_range
    (t w : tensor) (L start stop : nat) (lo hi : R) :
  clip L t ->
  (start <= stop)%nat ->
  lo <= 0 <= hi ->
  within lo hi t ->
  crop_audio (PTensor t) start stop = Ok w ->
  within lo hi w.
Proof.
  intros Hc Hle Hz Hin. rewrite (crop_audio_clip t L) by done.
  destruct (_ =? 1)%nat; [done|]. intros [= <-].
  unfold within in *. cbn [data]. apply Forall_app. split.
  - by apply Forall_take, Forall_drop.
  - by apply Forall_replicate.
Qed.

Lemma window_keeps_range_witness :
  within (-1) 1 (Tensor.mk [4%nat] [/2; -/2; 0; 0]).
Proof.
  apply (window_keeps_range (Tensor.mk [2%nat] [/2; -/2])
           (Tensor.mk [4%nat] [/2; -/2; 0; 0]) 2 0 4 (-1) 1).
  - by split.
  - lia.
  - lra.
  - unfold within. repeat constructor; simpl; lra.
  - rewrite (crop_audio_clip _ 2); [reflexivity | by split | lia].
Defined.

(** ** Conditional mode: aligned windows *)


Section AlignedFacts.

Context (cfg : Collator.config) (bins : nat).
Hypothesis Hcond : Collator.unconditional cfg = false.
Hypothesis Hne : (crop_mel_frames cfg * hop_samples cfg)%nat <> 1%nat.

(** One aligned record: the frames [[start, start + crop_mel_frames)]
    transposed, and the samples from [start * hop_samples] on. *)
Lemma collate_record_aligned (r : record) g sp t frames L :
  r !! "spectrogram" = Some (PTensor sp) ->
  shape sp = [frames; bins] ->
  r !! "audio" = Some (PTensor t) ->
  clip L t ->
  (crop_mel_frames cfg <= frames)%nat ->
  (frames * hop_samples cfg <= L)%nat ->
  exists start win,
    (start <= frames - crop_mel_frames cfg)%nat /\
    shape win = [crop_mel_frames cfg; bins] /\
    data win = take (crop_mel_frames cfg * bins)
                    (drop (start * bins) (data sp)) /\
    collate_record cfg r g
    = Ok (<["audio" := PTensor
              (Tensor.mk [(crop_mel_frames cfg * hop_samples cfg)%nat]
                 (take (crop_mel_frames cfg * hop_samples cfg)
                       (drop (start * hop_samples cfg) (data t))))]>
            (<["spectrogram" := PTensor (transpose win)]> r),
          mk_py (raw g) (S (pos g))).
Proof.
  intros Hs Hshape Ha Hclip Hle Hcover.
  destruct (collate_record_conditional cfg r g sp frames [bins] t L
              Hcond Hs Hshape Ha Hclip Hle)
    as (start & win & Hstart & Hwin & Hws & Hrec & _).
  exists start, win. split; [done|]. split; [done|]. split.
  - unfold slice0 in Hwin. rewrite Hshape in Hwin. inversion Hwin as [Hw].
    cbn [data numel foldr]. rewrite !Nat.mul_1_r.
    replace (Nat.min start frames) with start by lia.
    replace (Nat.max start (Nat.min (start + crop_mel_frames cfg) frames)
             - start)%nat with (crop_mel_frames cfg) by lia.
    done.
  - rewrite Hrec. rewrite (crop_audio_clip t L) by (done || nia).
    set (c := crop_mel_frames cfg) in *. set (h := hop_samples cfg) in *.
    assert ((start + c) * h <= L)%nat as Hstop by nia.
    replace (Nat.min ((start + c) * h) L - Nat.min (start * h) L)%nat
      with (c * h)%nat by nia.
    destruct (Nat.eqb_spec (c * h) 1) as [|_]; [done|].
    replace ((start + c) * h - start * h)%nat with (c * h)%nat by nia.
    replace (Nat.min (start * h) L) with (start * h)%nat by nia.
    rewrite Nat.sub_diag. cbn [replicate]. rewrite app_nil_r.
    by unfold_result.
Qed.

Lemma transpose_shape2 win rows cols :
  shape win = [rows; cols] -> shape (transpose win) = [cols; rows].
Proof. intros Hs. unfold transpose. cbn [shape]. by rewrite Hs. Qed.

End AlignedFacts.

(** X17.  Conditional mode, a record as above and
    [crop_mel_frames * hop_samples <> 1]: there is one frame offset
    [start] in [[0, frames - crop_mel_frames]] such that the record keeps
    the transposed frames [[start, start + crop_mel_frames)] and exactly
    the samples [[start * hop_samples, (start + crop_mel_frames) *
    hop_samples)] of the clip: both windows start at the same frame. *)
Theorem conditional_windows_are_aligned
    (cfg : Collator.config) (bins : nat) (r : record) (g : py_random)
    (sp t : tensor) (frames L : nat) :
  Collator.unconditional cfg = false ->
  (crop_mel_frames cfg * hop_samples cfg)%nat <> 1%nat ->
  r !! "spectrogram" = Some (PTensor sp) ->
  shape sp = [frames; bins] ->
  r !! "audio" = Some (PTensor t) ->
  clip L t ->
  (crop_mel_frames cfg <= frames)%nat ->
  (frames * hop_samples cfg <= L)%nat ->
  exists start win,
    (start <= frames - crop_mel_frames cfg)%nat /\
    shape win = [crop_mel_frames cfg; bins] /\
    data win = take (crop_mel_frames cfg * bins)
                    (drop (start * bins) (data sp)) /\
    collate_record cfg r g
    = Ok (<["audio" := PTensor
              (Tensor.mk [(crop_mel_frames cfg * hop_samples cfg)%nat]
                 (take (crop_mel_frames cfg * hop_samples cfg)
                       (drop (start * hop_samples cfg) (data t))))]>
            (<["spectrogram" := PTensor (transpose win)]> r),
          mk_py (raw g) (S (pos g))).
Proof. intros Hcond Hne. by apply collate_record_aligned. Qed.

Lemma conditional_windows_are_aligned_witness :
  exists start win,
    (start <= 3)%nat /\
    shape win = [2; 1]%nat /\
    collate_record (Collator.mk_config false 0 2 2)
      {[ "audio" := PTensor (Tensor.mk [10%nat] (replicate 10 0));
         "spectrogram" := PTensor (Tensor.mk [5; 1]%nat (replicate 5 0)) ]}
      (mk_py (fun _ => 7%nat) 0)
    = Ok (<["audio" := PTensor
              (Tensor.mk [4%nat] (take 4 (drop (start * 2) (replicate 10 0))))]>
            (<["spectrogram" := PTensor (transpose win)]>
               {[ "audio" := PTensor (Tensor.mk [10%nat] (replicate 10 0));
                  "spectrogram" := PTensor (Tensor.mk [5; 1]%nat
                                              (replicate 5 0)) ]}),
          mk_py (fun _ => 7%nat) 1).
Proof.
  destruct (conditional_windows_are_aligned
              (Collator.mk_config false 0 2 2) 1
              {[ "audio" := PTensor (Tensor.mk [10%nat] (replicate 10 0));
                 "spectrogram" := PTensor (Tensor.mk [5; 1]%nat
                                             (replicate 5 0)) ]}
              (mk_py (fun _ => 7%nat) 0)
              (Tensor.mk [5; 1]%nat (replicate 5 0))
              (Tensor.mk [10%nat] (replicate 10 0)) 5 10)
    as (start & win & Hs & Hw & _ & Hc);
    [reflexivity | simpl; lia | reflexivity | reflexivity | reflexivity
    | by split | simpl; lia | simpl; lia |].
  exists start, win. split; [exact Hs|]. split; [exact Hw|exact Hc].
Defined.

(** X18.  A record is dropped only when both keys can be deleted: a record
    that fails the length test of its mode and lacks the other key makes
    [collate] raise [KeyError] (from [del record["spectrogram"]] in
    unconditional mode, from [del record["audio"]] in conditional mode). *)
Theorem short_record_missing_key_raises
    (cfg : Collator.config) (r : record) (rest : list record)
    (g : py_random) (v : pyval) (n : nat) :
  pylen v = Ok n ->
  (if Collator.unconditional cfg
   then r !! "audio" = Some v /\ r !! "spectrogram" = None /\
        (n < audio_len cfg)%nat
   else r !! "spectrogram" = Some v /\ r !! "audio" = None /\
        (n < crop_mel_frames cfg)%nat) ->
  collate cfg (r :: rest) g = Raise KeyError.
Proof.
  intros Hn Hcase. unfold collate. cbn [collate_records].
  unfold collate_record, drop_record, del. unfold_result.
  destruct (Collator.unconditional cfg).
  - destruct Hcase as (Ha & Hs & Hlt). rewrite Ha, Hn.
    destruct (Nat.ltb_spec n (audio_len cfg)) as [_|]; [|lia].
    by rewrite Hs.
  - destruct Hcase as (Hs & Ha & Hlt). rewrite Hs, Hn.
    destruct (Nat.ltb_spec n (crop_mel_frames cfg)) as [_|]; [|lia].
    rewrite lookup_delete_ne by done. by rewrite Ha.
Qed.

Lemma short_record_missing_key_raises_witness :
  collate (Collator.mk_config true 4 2 256)
          [ {[ "audio" := PTensor (Tensor.mk [2%nat] [0; 0]) ]} ]
          (mk_py (fun _ => 0%nat) 0)
  = Raise KeyError.
Proof.
  apply (short_record_missing_key_raises
           (Collator.mk_config true 4 2 256)
           {[ "audio" := PTensor (Tensor.mk [2%nat] [0; 0]) ]} []
           (mk_py (fun _ => 0%nat) 0)
           (PTensor (Tensor.mk [2%nat] [0; 0])) 2);
    [reflexivity|].
  simpl. split; [reflexivity|]. split; [reflexivity|lia].
Defined.

(** ** The datasets *)

Import Dataset.

Section TransposeFacts.

(** Entry [(i, j)] of the transpose is entry [(j, i)]. *)
Lemma transpose_entry t A B i j :
  shape t = [A; B] -> (i < B)%nat -> (j < A)%nat ->
  nth (i * A + j) (data (transpose t)) 0 = nth (j * B + i) (data t) 0.
Proof.
  intros Hs Hi Hj. unfold transpose. rewrite Hs. cbn [rev app data].
  rewrite nth_tabulate by (rewrite numel2; by apply flat_index_lt).
  rewrite unravel2 by done. cbn [rev app ravel numel foldr].
  f_equal. lia.
Qed.

(** The first channel of a signal of [L] samples per channel is a clip. *)
Lemma index0_clip signal channels L :
  shape signal = [S channels; L] ->
  length (data signal) = (S channels * L)%nat ->
  exists t, index0 signal = Ok t /\ clip L t /\ data t = take L (data signal).
Proof.
  intros Hs Hd. unfold index0. rewrite Hs. eexists. split; [reflexivity|].
  cbn [numel foldr]. rewrite Nat.mul_1_r. split; [|done]. split; [done|].
  cbn [data]. rewrite length_take. nia.
Qed.

End TransposeFacts.

Section PathFacts.

Import Stdlib.Strings.Ascii.

Lemma append_snoc cur c n :
  ((cur +:+ String c EmptyString) +:+ n = cur +:+ String c n)%string.
Proof.
  induction cur as [|a cur IH]; [done|].
  change (String a ((cur +:+ String c EmptyString) +:+ n)
          = String a (cur +:+ String c n))%string.
  by rewrite IH.
Qed.

Lemma components_from_app d n : forall cur,
  components_from (d +:+ String "/" n) cur
  = components_from d cur ++ components_from n EmptyString.
Proof.
  induction d as [|c d IH]; intros cur; [done|].
  change (String c d +:+ String "/" n)%string
    with (String c (d +:+ String "/" n))%string.
  cbn [components_from].
  destruct (Ascii.eqb c "/"); rewrite IH; done.
Qed.

Lemma components_from_name n : forall cur,
  has_slash n = false -> components_from n cur = [(cur +:+ n)%string].
Proof.
  induction n as [|c n IH]; intros cur Hn.
  - cbn [components_from]. f_equal.
    induction cur as [|a cur IHc]; [done|].
    change (String a cur = String a (cur +:+ EmptyString))%string.
    by rewrite <- IHc.
  - cbn [has_slash] in Hn. apply orb_false_iff in Hn as [Hc Hn].
    cbn [components_from]. rewrite Hc, IH by done. f_equal.
    apply append_snoc.
Qed.

(** The name of a file below a directory is the file's own name. *)
Lemma path_name_below d n :
  has_slash n = false -> n <> ""%string -> n <> "."%string ->
  path_name (d +:+ String "/" n) = n.
Proof.
  intros Hn He Hd. unfold path_name.
  rewrite components_from_app. rewrite (components_from_name n) by done.
  change (EmptyString +:+ n)%string with n.
  rewrite List.filter_app. cbn [List.filter].
  apply String.eqb_neq in He, Hd. rewrite He, Hd. cbn [orb negb].
  by rewrite last_snoc.
Qed.

End PathFacts.

(** X19.  Round trip of the two transpositions.  [ConditionalDataset]
    hands out the stored spectrogram (bins by frames) transposed, the
    collator cuts frames and transposes back: the window of the batch is
    the columns [[start, start + crop_mel_frames)] of the stored array, bin
    by bin, and the audio window is cut from the first channel of the
    signal at [start * hop_samples]. *)
Theorem conditional_item_window_is_stored_columns
    (torchaudio_load np_load : string -> result tensor)
    (joinpath : string -> string -> string)
    (ds : dataset) (idx : Z) (f : string) (signal M : tensor)
    (channels L bins frames : nat) (cfg : Collator.config) (g : py_random) :
  list_index (filenames ds) idx = Ok f ->
  torchaudio_load f = Ok signal ->
  shape signal = [S channels; L] ->
  length (data signal) = (S channels * L)%nat ->
  np_load (spec_filename joinpath ds f) = Ok M ->
  shape M = [bins; frames] ->
  Collator.unconditional cfg = false ->
  (crop_mel_frames cfg * hop_samples cfg)%nat <> 1%nat ->
  (crop_mel_frames cfg <= frames)%nat ->
  (frames * hop_samples cfg <= L)%nat ->
  exists r start W w,
    conditional_getitem torchaudio_load np_load joinpath ds idx = Ok r /\
    collate_record cfg r g
    = Ok (<["audio" := PTensor w]> (<["spectrogram" := PTensor W]> r),
          mk_py (raw g) (S (pos g))) /\
    (start <= frames - crop_mel_frames cfg)%nat /\
    shape W = [bins; crop_mel_frames cfg] /\
    (forall b j, (b < bins)%nat -> (j < crop_mel_frames cfg)%nat ->
       nth (b * crop_mel_frames cfg + j) (data W) 0
       = nth (b * frames + (start + j)) (data M) 0) /\
    shape w = [(crop_mel_frames cfg * hop_samples cfg)%nat] /\
    data w = take (crop_mel_frames cfg * hop_samples cfg)
                  (drop (start * hop_samples cfg) (take L (data signal))).
Proof.
  intros Hidx Hload Hss Hsd Hnp HM Hcond Hne Hle Hcov.
  destruct (index0_clip signal channels L Hss Hsd) as (t0 & Ht0 & Hclip & Hd0).
  set (r := ({[ "audio" := PTensor t0;
                "spectrogram" := PTensor (transpose M) ]} : gmap string pyval)).
  destruct (collate_record_aligned cfg bins Hcond Hne r g (transpose M) t0
              frames L)
    as (start & win & Hstart & Hwsh & Hwd & Hrec);
    [by unfold r; dict_lookup | by apply transpose_shape2
    | by unfold r; dict_lookup | done | done | done |].
  exists r, start, (transpose win). eexists.
  split; [|split; [exact Hrec|]].
  { unfold conditional_getitem. unfold_result.
    by rewrite Hidx, Hload, Hnp, Ht0. }
  split; [done|]. split; [by apply transpose_shape2|].
  split; [|split; [done|cbn [data]; by rewrite Hd0]].
  intros b j Hb Hj.
  rewrite (transpose_entry win (crop_mel_frames cfg) bins) by done.
  rewrite Hwd, nth_firstn.
  destruct (Nat.ltb_spec (j * bins + b) (crop_mel_frames cfg * bins)) as [_|];
    [|nia].
  rewrite nth_skipn.
  replace (start * bins + (j * bins + b))%nat
    with ((start + j) * bins + b)%nat by lia.
  apply (transpose_entry M bins frames); [done|lia|done].
Qed.

(** A stored spectrogram of one bin and five frames, ten samples of
    audio, two samples per frame, windows of two frames. *)
Lemma conditional_item_window_is_stored_columns_witness :
  let load := fun _ : string => Ok (Tensor.mk [1; 10]%nat (replicate 10 0)) in
  let npload := fun _ : string => Ok (Tensor.mk [1; 5]%nat [1; 2; 3; 4; 5]) in
  let ds := mk_dataset "spectrograms" ["a.wav"%string] in
  exists r start W w,
    conditional_getitem load npload String.append ds 0 = Ok r /\
    collate_record (Collator.mk_config false 0 2 2) r
                   (mk_py (fun _ => 7%nat) 0)
    = Ok (<["audio" := PTensor w]> (<["spectrogram" := PTensor W]> r),
          mk_py (fun _ => 7%nat) 1) /\
    (start <= 3)%nat /\
    nth 0 (data W) 0 = nth (start + 0) [1; 2; 3; 4; 5] 0.
Proof.
  intros load npload ds.
  destruct (conditional_item_window_is_stored_columns
              load npload String.append ds 0 "a.wav"
              (Tensor.mk [1; 10]%nat (replicate 10 0))
              (Tensor.mk [1; 5]%nat [1; 2; 3; 4; 5])
              0 10 1 5 (Collator.mk_config false 0 2 2)
              (mk_py (fun _ => 7%nat) 0))
    as (r & start & W & w & Hitem & Hrec & Hstart & _ & Hent & _);
    [reflexivity | reflexivity | reflexivity | reflexivity | reflexivity
    | reflexivity | reflexivity | simpl; lia | simpl; lia | simpl; lia |].
  exists r, start, W, w. split; [exact Hitem|]. split; [exact Hrec|].
  split; [exact Hstart|].
  exact (Hent 0%nat 0%nat ltac:(lia) ltac:(simpl; lia)).
Defined.

Section SpecFile.

Import Stdlib.Strings.Ascii.

(** X20.  The spectrogram file of an audio file is looked up by the
    file's own name only: two audio files with the same name in different
    directories (as the recursive glob can return) share one spectrogram
    file. *)
Theorem spec_file_ignores_directory
    (joinpath : string -> string -> string) (ds : dataset)
    (dir1 dir2 name : string) :
  has_slash name = false ->
  name <> ""%string ->
  name <> "."%string ->
  spec_filename joinpath ds (dir1 +:+ String "/" name)
  = spec_filename joinpath ds (dir2 +:+ String "/" name) /\
  spec_filename joinpath ds (dir1 +:+ String "/" name)
  = (joinpath (spectrograms_path ds) name +:+ ".spec.npy")%string.
Proof.
  intros Hs He Hd. unfold spec_filename.
  by rewrite !path_name_below.
Qed.

Lemma spec_file_ignores_directory_witness :
  spec_filename String.append (mk_dataset "spectrograms/" [])
                "wavs/speaker1/0001.wav"
  = spec_filename String.append (mk_dataset "spectrograms/" [])
                  "wavs/speaker2/0001.wav".
Proof.
  exact (proj1 (spec_file_ignores_directory String.append
                  (mk_dataset "spectrograms/" [])
                  "wavs/speaker1" "wavs/speaker2" "0001.wav"
                  eq_refl ltac:(discriminate) ltac:(discriminate))).
Defined.

End SpecFile.

(** X21.  The dataset and the collator selected by one flag fit: in
    unconditional mode an item read from a signal of [L] samples per
    channel carries the first channel as a clip of [L] samples and
    [None] as spectrogram, so the collator either drops it (fewer than
    [audio_len] samples) or crops it; the keys it deletes are there. *)
Theorem unconditional_item_meets_collator
    (torchaudio_load np_load : string -> result tensor)
    (joinpath : string -> string -> string)
    (cfg : Collator.config) (ds : dataset) (idx : Z) (f : string)
    (signal : tensor) (channels L : nat) :
  Collator.unconditional cfg = true ->
  list_index (filenames ds) idx = Ok f ->
  torchaudio_load f = Ok signal ->
  shape signal = [S channels; L] ->
  length (data signal) = (S channels * L)%nat ->
  exists r t,
    lj_speech_from_path torchaudio_load np_load joinpath cfg ds idx = Ok r /\
    r = {[ "audio" := PTensor t; "spectrogram" := PNone ]} /\
    clip L t /\
    data t = take L (data signal) /\
    (filtered_out cfg r \/ long_clip cfg r).
Proof.
  intros Hun Hidx Hload Hss Hsd.
  destruct (index0_clip signal channels L Hss Hsd) as (t & Ht & Hclip & Hd).
  exists {[ "audio" := PTensor t; "spectrogram" := PNone ]}, t.
  split; [|split; [done|split; [done|split; [done|]]]].
  { unfold lj_speech_from_path, unconditional_getitem. rewrite Hun.
    unfold_result. by rewrite Hidx, Hload, Ht. }
  destruct (Nat.lt_ge_cases L (audio_len cfg)) as [Hlt|Hge].
  - left. exists (PTensor t), PNone, L.
    split; [by dict_lookup|]. split; [by dict_lookup|].
    rewrite Hun. split; [by apply len_clip|done].
  - right. exists t, L. split; [by dict_lookup|]. by split.
Qed.

Lemma unconditional_item_meets_collator_witness :
  let load := fun _ : string => Ok (Tensor.mk [2; 3]%nat [1; 2; 3; 4; 5; 6]) in
  exists r t,
    lj_speech_from_path load load String.append
      (Collator.mk_config true 2 2 256) (mk_dataset "s" ["a.wav"%string]) 0
    = Ok r /\
    clip 3 t /\ data t = [1; 2; 3].
Proof.
  intros load.
  destruct (unconditional_item_meets_collator load load String.append
              (Collator.mk_config true 2 2 256)
              (mk_dataset "s" ["a.wav"%string]) 0 "a.wav"
              (Tensor.mk [2; 3]%nat [1; 2; 3; 4; 5; 6]) 1 3)
    as (r & t & Hitem & _ & Hclip & Hd & _); try reflexivity.
  exists r, t. split; [exact Hitem|]. split; [exact Hclip|exact Hd].
Defined.

(** X22.  Items are indexed as a Python list: an index outside
    [[-len, len)] raises [IndexError] before any file is read, in either
    mode, and a negative index [-k] reads the item [len - k]. *)
Theorem item_index_bounds
    (torchaudio_load np_load : string -> result tensor)
    (joinpath : string -> string -> string)
    (cfg : Collator.config) (ds : dataset) (idx : Z) :
  ((idx < - Z.of_nat (dataset_len ds))%Z \/
   (Z.of_nat (dataset_len ds) <= idx)%Z ->
   lj_speech_from_path torchaudio_load np_load joinpath cfg ds idx
   = Raise IndexError) /\
  ((- Z.of_nat (dataset_len ds) <= idx < 0)%Z ->
   lj_speech_from_path torchaudio_load np_load joinpath cfg ds idx
   = lj_speech_from_path torchaudio_load np_load joinpath cfg ds
       (idx + Z.of_nat (dataset_len ds))).
Proof.
  unfold dataset_len. split.
  - intros Hout.
    assert (forall A (l : list A), length l = length (filenames ds) ->
              list_index l idx = Raise IndexError) as Hidx.
    { intros A l Hl. unfold list_index. rewrite Hl.
      assert ((idx <? - Z.of_nat (length (filenames ds)))%Z
              || (Z.of_nat (length (filenames ds)) <=? idx)%Z = true) as ->;
        [|done].
      apply orb_true_iff. destruct Hout; [left|right]; lia. }
    unfold lj_speech_from_path, unconditional_getitem, conditional_getitem.
    unfold_result. destruct (Collator.unconditional cfg);
      by rewrite (Hidx _ (filenames ds) eq_refl).
  - intros Hneg.
    assert (list_index (filenames ds) idx
            = list_index (filenames ds)
                (idx + Z.of_nat (length (filenames ds)))) as Hidx.
    { unfold list_index. set (n := Z.of_nat (length (filenames ds))) in *.
      assert ((idx <? - n)%Z || (n <=? idx)%Z = false) as ->.
      { apply orb_false_iff. split; lia. }
      assert ((idx + n <? - n)%Z || (n <=? idx + n)%Z = false) as ->.
      { apply orb_false_iff. split; lia. }
      destruct (Z.ltb_spec idx 0) as [_|]; [|lia].
      destruct (Z.ltb_spec (idx + n) 0) as [|_]; [lia|]. done. }
    unfold lj_speech_from_path, unconditional_getitem, conditional_getitem.
    destruct (Collator.unconditional cfg); by rewrite Hidx.
Qed.

Lemma item_index_bounds_witness :
  lj_speech_from_path (fun _ => Raise RuntimeError) (fun _ => Raise RuntimeError)
    String.append (Collator.mk_config true 2 2 256)
    (mk_dataset "s" ["a.wav"%string]) 1
  = Raise IndexError.
Proof.
  apply (proj1 (item_index_bounds (fun _ => Raise RuntimeError)
                  (fun _ => Raise RuntimeError) String.append
                  (Collator.mk_config true 2 2 256)
                  (mk_dataset "s" ["a.wav"%string]) 1)).
  right. unfold dataset_len. simpl. lia.
Defined.
